(** * gdkvim: the Vim client/server messaging core of Pida

    A shallow embedding of [src/plugins/vim/gdkvim.py] (classes [VimHidden]
    and [VimWindow]) and the properties of its message codec, serial
    allocation, reply dispatch and server-list discovery.

    Python strings are [string], Python integers are [Z], dictionaries are
    [gmap], a raised exception is the [Raise] case of [result].  The X
    server, the operating system and the application that embeds the window
    are an explicit environment ([Env]) and explicit output traces. *)

From Stdlib Require Import ZArith Lia Ascii.
From Stdlib Require DecimalString HexadecimalString DecimalZ DecimalPos HexadecimalN HexadecimalPos.
From stdpp Require Import base option list strings gmap.

Local Open Scope Z_scope.

(** ** Python string primitives used by the module *)

Module Py.

Definition NUL : ascii := "000"%char.
Definition LF : ascii := "010"%char.
Definition CR : ascii := "013"%char.

(** Truth value of a [str]: empty strings are false. *)
Definition truthy (s : string) : bool :=
  match s with
  | EmptyString => false
  | String _ _ => true
  end.

(** [s.split(sep)] for a one-character separator. *)
Fixpoint split (sep : ascii) (s : string) : list string :=
  match s with
  | EmptyString => [EmptyString]
  | String c s' =>
      if Ascii.eqb c sep then EmptyString :: split sep s'
      else match split sep s' with
           | w :: ws => String c w :: ws
           | [] => [String c EmptyString]
           end
  end.

(** [s.split(sep, 1)]. *)
Fixpoint split1 (sep : ascii) (s : string) : list string :=
  match s with
  | EmptyString => [EmptyString]
  | String c s' =>
      if Ascii.eqb c sep then [EmptyString; s']
      else match split1 sep s' with
           | w :: ws => String c w :: ws
           | [] => [String c EmptyString]
           end
  end.

(** [s.count(c)] for a one-character needle. *)
Fixpoint count (c : ascii) (s : string) : nat :=
  match s with
  | EmptyString => O
  | String c' s' => if Ascii.eqb c' c then S (count c s') else count c s'
  end.

(** [s.split()]: maximal runs of non-whitespace characters. *)
Fixpoint split_ws (s : string) : list string :=
  match s with
  | EmptyString => []
  | String c s' =>
      if Ascii.is_space c then split_ws s'
      else match s' with
           | EmptyString => [String c EmptyString]
           | String c' _ =>
               if Ascii.is_space c' then String c EmptyString :: split_ws s'
               else match split_ws s' with
                    | w :: ws => String c w :: ws
                    | [] => [String c EmptyString]
                    end
           end
  end.

(** [s.splitlines()] on a byte string: breaks at LF, CR and CR LF. *)
Fixpoint splitlines (s : string) : list string :=
  match s with
  | EmptyString => []
  | String c s' =>
      if Ascii.eqb c LF then EmptyString :: splitlines s'
      else if Ascii.eqb c CR then
        match s' with
        | String c' s'' =>
            if Ascii.eqb c' LF then EmptyString :: splitlines s''
            else EmptyString :: splitlines s'
        | EmptyString => [EmptyString]
        end
      else match splitlines s' with
           | w :: ws => String c w :: ws
           | [] => [String c EmptyString]
           end
  end.

(** [sep.join(fields)] for a one-character separator. *)
Fixpoint join (sep : ascii) (fields : list string) : string :=
  match fields with
  | [] => EmptyString
  | [f] => f
  | f :: fs => f +:+ String sep (join sep fs)
  end.

(** [s.startswith(p)]. *)
Fixpoint startswith (p s : string) : bool :=
  match p, s with
  | EmptyString, _ => true
  | String a p', String b s' => Ascii.eqb a b && startswith p' s'
  | String _ _, EmptyString => false
  end.

(** [s[n:]]. *)
Fixpoint drop (n : nat) (s : string) : string :=
  match n, s with
  | O, _ => s
  | S n', String _ s' => drop n' s'
  | S _, EmptyString => EmptyString
  end.

Fixpoint lstrip (c : ascii) (s : string) : string :=
  match s with
  | String c' s' => if Ascii.eqb c' c then lstrip c s' else s
  | EmptyString => EmptyString
  end.

Fixpoint rstrip (c : ascii) (s : string) : string :=
  match s with
  | String c' s' =>
      match rstrip c s' with
      | EmptyString => if Ascii.eqb c' c then EmptyString else String c' EmptyString
      | r => String c' r
      end
  | EmptyString => EmptyString
  end.

(** [s.strip(c)] for a one-character set. *)
Definition strip (c : ascii) (s : string) : string := rstrip c (lstrip c s).

(** ['%x' % n]. *)
Definition fmt_x (n : Z) : string :=
  let digits := HexadecimalString.NilZero.string_of_uint (N.to_hex_uint (Z.abs_N n)) in
  if n <? 0 then String "-" digits else digits.

(** ['%s' % n] for an integer [n]. *)
Definition fmt_d (n : Z) : string :=
  DecimalString.NilZero.string_of_int (Z.to_int n).

Definition hex_digit (c : ascii) : option Z :=
  let n := Z.of_N (Ascii.N_of_ascii c) in
  if (48 <=? n) && (n <=? 57) then Some (n - 48)
  else if (97 <=? n) && (n <=? 102) then Some (n - 87)
  else if (65 <=? n) && (n <=? 70) then Some (n - 55)
  else None.

Fixpoint hex_digits (s : string) (acc : Z) : option Z :=
  match s with
  | EmptyString => Some acc
  | String c s' =>
      match hex_digit c with
      | Some d => hex_digits s' (16 * acc + d)
      | None => None
      end
  end.

(** [int(s, 16)] on a token without surrounding whitespace: an optional
    sign, an optional [0x] prefix, at least one hexadecimal digit.  [None]
    stands for [ValueError]. *)
Definition int16 (s : string) : option Z :=
  let '(neg, body) :=
    match s with
    | String "-" r => (true, r)
    | String "+" r => (false, r)
    | _ => (false, s)
    end in
  let body :=
    match body with
    | String "0" (String "x" r) => r
    | String "0" (String "X" r) => r
    | _ => body
    end in
  match body with
  | EmptyString => None
  | _ => (λ v, if (neg : bool) then - v else v) <$> hex_digits body 0
  end.

(** [os.path.join(a, b)] of [posixpath]. *)
Definition path_join (a b : string) : string :=
  if startswith "/" b then b
  else match a with
       | EmptyString => b
       | _ => if Ascii.eqb (default "/"%char (last (String.list_ascii_of_string a))) "/"
              then a +:+ b else a +:+ "/" +:+ b
       end.

(** [s.replace(old, new)] for a one-character [old]. *)
Fixpoint replace (old : ascii) (new : string) (s : string) : string :=
  match s with
  | EmptyString => EmptyString
  | String c s' =>
      if Ascii.eqb c old then new +:+ replace old new s'
      else String c (replace old new s')
  end.

End Py.

(** ** Exceptions *)

Inductive exn :=
| KeyError (key : string)
| IndexError
| ValueError.

Inductive result (A : Type) :=
| Ok (a : A)
| Raise (e : exn).

Arguments Ok {A} a.
Arguments Raise {A} e.

#[global] Instance result_ret : MRet result := λ A a, Ok a.
#[global] Instance result_bind : MBind result := λ A B f m,
  match m with
  | Ok a => f a
  | Raise e => Raise e
  end.

(** ** Data model *)

(** Values handed to the application's event bus. *)
Inductive pyval :=
| PStr (s : string)
| PStrList (l : list string)
| PRows (l : list (list string)).

Record event := Event { evt_name : string; evt_args : list pyval }.

Record logentry := LogEntry { log_message : string; log_details : string; log_level : Z }.

(** The callables stored in [VimWindow.callbacks], one constructor per
    closure the module creates, plus the callables the application passes
    in ([get_option]). *)
Inductive callback :=
| CbHiddenServerlist          (* [cb] of get_hidden_serverlist around [gotservers] *)
| CbGotCwd (servername : string)   (* [gotcwd] of fetch_cwd *)
| CbForeground                (* [cb] of foreground: pass *)
| CbBufferlist (server : string)   (* [cb] of get_bufferlist *)
| CbCurrentBuffer (server : string) (* [cb] of get_current_buffer *)
| CbClient (tag : string).    (* a callable of the application *)

Record VimHidden := MkVimHidden {
  name : string;
  pid : option Z;
  childfd : option Z;
  accounted : list Z           (* do_action('accountfork', pid) *)
}.

Record VimWindow := MkVimWindow {
  xid : Z;                               (* self.window.xid *)
  serial : Z;
  callbacks : gmap string callback;
  server_cwds : gmap string string;
  oldservers : option (list string);
  vim_hidden : VimHidden;
  comm : list (Z * string);              (* appends to a peer's "Comm" property *)
  events : list event;                   (* do_evt *)
  logs : list logentry;                  (* do_log *)
  client_calls : list (string * string)  (* invocations of application callables *)
}.

Inductive waitpid_result :=
| WaitReturns (wpid : Z) (sts : Z)
| WaitOSError.

(** What [gtk.gdk.window_foreign_new] hands back for a live window: the data
    of its "Vim" property, if it has one. *)
Record GdkWindow := MkGdkWindow { vim_property : option string }.

(** The world outside the process, as the module observes it. *)
Record Env := MkEnv {
  root_vimregistry : option string;         (* data of the root "VimRegistry" property *)
  window_foreign_new : Z → option GdkWindow;
  os_waitpid : Z → waitpid_result;          (* os.waitpid(pid, os.WNOHANG) *)
  pty_fork : Z * Z;                         (* pty.fork() in the parent *)
  time_stamp : string;                      (* '%s' % time.time() *)
  home : string                             (* os.path.expanduser('~') *)
}.

Definition set_pid (p : option Z) (h : VimHidden) : VimHidden :=
  MkVimHidden (name h) p (childfd h) (accounted h).

Definition set_serial (n : Z) (w : VimWindow) : VimWindow :=
  MkVimWindow (xid w) n (callbacks w) (server_cwds w) (oldservers w)
    (vim_hidden w) (comm w) (events w) (logs w) (client_calls w).

Definition set_callbacks (c : gmap string callback) (w : VimWindow) : VimWindow :=
  MkVimWindow (xid w) (serial w) c (server_cwds w) (oldservers w)
    (vim_hidden w) (comm w) (events w) (logs w) (client_calls w).

Definition set_server_cwds (c : gmap string string) (w : VimWindow) : VimWindow :=
  MkVimWindow (xid w) (serial w) (callbacks w) c (oldservers w)
    (vim_hidden w) (comm w) (events w) (logs w) (client_calls w).

Definition set_oldservers (o : option (list string)) (w : VimWindow) : VimWindow :=
  MkVimWindow (xid w) (serial w) (callbacks w) (server_cwds w) o
    (vim_hidden w) (comm w) (events w) (logs w) (client_calls w).

Definition set_vim_hidden (h : VimHidden) (w : VimWindow) : VimWindow :=
  MkVimWindow (xid w) (serial w) (callbacks w) (server_cwds w) (oldservers w)
    h (comm w) (events w) (logs w) (client_calls w).

(** [sw.property_change("Comm", gdk.TARGET_STRING, 8, gdk.PROP_MODE_APPEND, mp)]
    on the window with id [wid]. *)
Definition property_change_comm (wid : Z) (mp : string) (w : VimWindow) : VimWindow :=
  MkVimWindow (xid w) (serial w) (callbacks w) (server_cwds w) (oldservers w)
    (vim_hidden w) (comm w ++ [(wid, mp)]) (events w) (logs w) (client_calls w).

(** Modelled from the spec: [pida.base.pidaobject.do_evt] is not part of the
    sources at hand; the spec's application sink receives the event name
    and its arguments, in order. *)
Definition do_evt (evt : string) (args : list pyval) (w : VimWindow) : VimWindow :=
  MkVimWindow (xid w) (serial w) (callbacks w) (server_cwds w) (oldservers w)
    (vim_hidden w) (comm w) (events w ++ [Event evt args]) (logs w) (client_calls w).

(** Modelled from the spec: [pida.base.pidaobject.do_log] is not part of the
    sources at hand; a call logs one diagnostic. *)
Definition do_log (message details : string) (level : Z) (w : VimWindow) : VimWindow :=
  MkVimWindow (xid w) (serial w) (callbacks w) (server_cwds w) (oldservers w)
    (vim_hidden w) (comm w) (events w) (logs w ++ [LogEntry message details level])
    (client_calls w).

(** A callable of the application called with one string. *)
Definition call_client (tag arg : string) (w : VimWindow) : VimWindow :=
  MkVimWindow (xid w) (serial w) (callbacks w) (server_cwds w) (oldservers w)
    (vim_hidden w) (comm w) (events w) (logs w) (client_calls w ++ [(tag, arg)]).

(** ** VimHidden *)

Module Hidden.

(** [VimHidden.do_init]. *)
Definition do_init (env : Env) : VimHidden :=
  MkVimHidden ("__" +:+ time_stamp env +:+ "_PIDA_HIDDEN") None None [].

(** Truth value of [self.pid]. *)
Definition pid_set (h : VimHidden) : option Z :=
  match pid h with
  | Some p => if p =? 0 then None else Some p
  | None => None
  end.

(** [VimHidden.start], on the parent's side of the fork. *)
Definition start (env : Env) (h : VimHidden) : VimHidden :=
  match pid_set h with
  | Some _ => h
  | None =>
      let '(p, fd) := pty_fork env in
      if p =? 0 then h
      else MkVimHidden (name h) (Some p) (Some fd) (accounted h ++ [p])
  end.

(** [VimHidden.is_alive]. *)
Definition is_alive (env : Env) (h : VimHidden) : bool * VimHidden :=
  match pid_set h with
  | Some p =>
      match os_waitpid env p with
      | WaitOSError => (false, h)
      | WaitReturns wpid _ =>
          if wpid =? p then (false, set_pid None h) else (true, h)
      end
  | None => (false, h)
  end.

End Hidden.

(** ** VimWindow *)

(** A [for] loop whose body may raise. *)
Fixpoint for_each {A S : Type} (body : S → A → result S) (l : list A) (s : S) : result S :=
  match l with
  | [] => mret s
  | x :: l' => s' ← body s x; for_each body l' s'
  end.

(** [VimWindow.do_init]: the fields it initialises; the hidden Vim is
    created and started. *)
Definition do_init (env : Env) (own_xid : Z) : VimWindow :=
  MkVimWindow own_xid 1 ∅ ∅ None (Hidden.start env (Hidden.do_init env)) [] [] [] [].

(** One turn of the loop of [get_rootwindow_serverlist].  Python evaluates
    the right-hand side [long(int(name_id[0], 16))] before the subscript
    [name_id[1]] of the assignment target. *)
Definition register_rawserver (servers : gmap string Z) (rawserver : string)
    : result (gmap string Z) :=
  if Py.truthy rawserver then
    let name_id := Py.split_ws rawserver in
    match name_id !! 0%nat with
    | None => Raise IndexError
    | Some id =>
        match Py.int16 id with
        | None => Raise ValueError
        | Some wid =>
            match name_id !! 1%nat with
            | None => Raise IndexError
            | Some nm => Ok (<[nm := wid]> servers)
            end
        end
    end
  else Ok servers.

Definition get_rootwindow_serverlist (env : Env) : result (gmap string Z) :=
  match root_vimregistry env with
  | Some data => for_each register_rawserver (Py.split Py.NUL data) ∅
  | None => Ok ∅
  end.

(** [get_server_wid]: [KeyError] is caught; [wid and long(wid) or None]
    turns a zero id into [None]. *)
Definition get_server_wid (env : Env) (servername : string) : result (option Z) :=
  servers ← get_rootwindow_serverlist env;
  mret (match servers !! servername with
        | Some wid => if wid =? 0 then None else Some wid
        | None => None
        end).

Definition get_server_window (env : Env) (wid : Z) : option GdkWindow :=
  window_foreign_new env wid.

(** The text [generate_message] returns, for the serial it embeds. *)
Definition frame_text (server cork message : string) (sourceid serial : Z) : string :=
  String Py.NUL cork +:+ String Py.NUL "-n " +:+ server +:+
  String Py.NUL "-s " +:+ message +:+
  String Py.NUL "-r " +:+ Py.fmt_x sourceid +:+ " " +:+ Py.fmt_d serial +:+
  String Py.NUL "".

(** The serial after one increment of [generate_message]. *)
Definition next_serial (n : Z) : Z :=
  if n + 1 >? 65530 then 1 else n + 1.

Definition generate_message (server cork message : string) (sourceid : Z)
    (w : VimWindow) : string * VimWindow :=
  let w' := if Py.truthy cork then set_serial (next_serial (serial w)) w else w in
  (frame_text server cork message sourceid (serial w'), w').

Definition parse_field (messageattrs : gmap string string) (t : list string)
    : gmap string string :=
  match t with
  | [] => messageattrs
  | t0 :: rest =>
      if Py.truthy t0 then
        if Py.startswith "-" t0 then
          match rest with
          | t1 :: _ => <[Py.drop 1 t0 := t1]> messageattrs
          | [] => messageattrs
          end
        else <["t" := t0]> messageattrs
      else messageattrs
  end.

Definition parse_message (message : string) : gmap string string :=
  foldl parse_field ∅ (Py.split " " <$> Py.split Py.NUL message).

Definition send_message (env : Env) (servername message : string) (asexpr : bool)
    (cb : option callback) (w : VimWindow) : result VimWindow :=
  wid ← get_server_wid env servername;
  match wid with
  | Some wid =>
      let cork := if asexpr then "c" else "k" in
      match get_server_window env wid with
      | Some sw =>
          match vim_property sw with
          | Some _ =>
              let '(mp, w1) := generate_message servername cork message (xid w) w in
              let w2 := property_change_comm wid mp w1 in
              mret (match asexpr, cb with
                    | true, Some f =>
                        set_callbacks (<[Py.fmt_d (serial w2) := f]> (callbacks w2)) w2
                    | _, _ => w2
                    end)
          | None => mret w
          end
      | None => mret w
      end
  | None => mret w
  end.

Definition send_expr (env : Env) (server message : string) (cb : option callback)
    (w : VimWindow) : result VimWindow :=
  send_message env server message true cb w.

Definition send_keys (env : Env) (server message : string) (w : VimWindow)
    : result VimWindow :=
  send_message env server message false None w.

Definition send_esc (env : Env) (server : string) (w : VimWindow) : result VimWindow :=
  send_keys env server "<C-\><C-N>" w.

Definition send_ret (env : Env) (server : string) (w : VimWindow) : result VimWindow :=
  send_keys env server "<RETURN>" w.

Definition send_ex (env : Env) (server message : string) (w : VimWindow)
    : result VimWindow :=
  w1 ← send_esc env server w;
  w2 ← send_keys env server (":" +:+ message) w1;
  send_ret env server w2.

Definition get_option (env : Env) (server option_name : string) (callbackfunc : string)
    (w : VimWindow) : result VimWindow :=
  send_expr env server ("&" +:+ option_name) (Some (CbClient callbackfunc)) w.

Definition foreground (env : Env) (server : string) (w : VimWindow) : result VimWindow :=
  send_expr env server "foreground()" (Some CbForeground) w.

Definition get_bufferlist (env : Env) (server : string) (w : VimWindow) : result VimWindow :=
  send_expr env server "Bufferlist()" (Some (CbBufferlist server)) w.

Definition get_current_buffer (env : Env) (server : string) (w : VimWindow)
    : result VimWindow :=
  send_expr env server "bufnr('%').','.bufname('%')" (Some (CbCurrentBuffer server)) w.

Definition feed_serverlist (serverlist : list string) (w : VimWindow) : VimWindow :=
  do_evt "serverlist" [PStrList serverlist] w.

Definition fetch_cwd (env : Env) (servername : string) (w : VimWindow) : result VimWindow :=
  send_expr env servername "getcwd()" (Some (CbGotCwd servername)) w.

Definition abspath (env : Env) (servername filename : string) (w : VimWindow)
    : result (string * VimWindow) :=
  if Py.startswith "/" filename then mret (filename, w)
  else match server_cwds w !! servername with
       | Some cwd => mret (Py.path_join cwd filename, w)
       | None =>
           w' ← fetch_cwd env servername w;
           mret (Py.path_join (home env) filename, w')
       end.

(** [gotservers] of [fetch_serverlist]. *)
Definition gotservers (env : Env) (serverlist : list string) (w : VimWindow)
    : result VimWindow :=
  w1 ← for_each (λ w0 server,
          match server_cwds w0 !! server with
          | None => fetch_cwd env server w0
          | Some _ => mret w0
          end) serverlist w;
  mret (match oldservers w1 with
        | Some old =>
            if decide (serverlist = old) then w1
            else feed_serverlist serverlist (set_oldservers (Some serverlist) w1)
        | None => feed_serverlist serverlist (set_oldservers (Some serverlist) w1)
        end).

(** The list [cb] of [get_hidden_serverlist] passes on. *)
Definition visible_servers (serverstring : string) : list string :=
  List.filter (λ svr, negb (Py.startswith "__" svr)) (Py.splitlines serverstring).

Definition bufferlist_row (env : Env) (server : string)
    (acc : list (list string) * VimWindow) (n : list string)
    : result (list (list string) * VimWindow) :=
  match n with
  | n0 :: rest =>
      if Py.startswith "E" n0 then mret acc
      else match rest with
           | n1 :: _ =>
               '(p, w') ← abspath env server n1 acc.2;
               mret (acc.1 ++ [[n0; p]], w')
           | [] => Raise IndexError
           end
  | [] => Raise IndexError
  end.

(** Calling a stored callable with the reply text. *)
Definition run_callback (env : Env) (cb : callback) (arg : string) (w : VimWindow)
    : result VimWindow :=
  match cb with
  | CbHiddenServerlist => gotservers env (visible_servers arg) w
  | CbGotCwd servername =>
      mret (set_server_cwds (<[servername := arg]> (server_cwds w)) w)
  | CbForeground => mret w
  | CbBufferlist server =>
      if Py.truthy arg then
        '(L, w') ← for_each (bufferlist_row env server)
                     (Py.split ":" <$> Py.split ";" (Py.strip ";" arg)) ([], w);
        mret (do_evt "bufferlist" [PRows L] w')
      else mret w
  | CbCurrentBuffer server =>
      let bn := Py.split "," arg in
      match bn !! 1%nat with
      | Some b1 =>
          '(p, w') ← abspath env server b1 w;
          mret (do_evt "bufferchange" (PStr <$> <[1%nat := p]> bn) w')
      | None => Raise IndexError
      end
  | CbClient tag => mret (call_client tag arg w)
  end.

Definition get_hidden_serverlist (env : Env) (w : VimWindow) : result VimWindow :=
  let '(alive, h) := Hidden.is_alive env (vim_hidden w) in
  let w1 := set_vim_hidden h w in
  if alive then send_expr env (name h) "serverlist()" (Some CbHiddenServerlist) w1
  else mret (set_vim_hidden (Hidden.start env h) w1).

(** [fetch_serverlist] returns [True] so that the timer continues. *)
Definition fetch_serverlist (env : Env) (w : VimWindow) : result (bool * VimWindow) :=
  w' ← get_hidden_serverlist env w;
  mret (true, w').

Definition cb_reply_async (data : string) (w : VimWindow) : result VimWindow :=
  match Py.count "," data with
  | S _ =>
      match Py.split1 "," data with
      | [evt; d] => mret (do_evt evt (PStr <$> Py.split "," d) w)
      | _ => Raise ValueError
      end
  | O => mret (do_log "bad async reply" data 10 w)
  end.

Definition cb_reply (env : Env) (data : string) (w : VimWindow) : result VimWindow :=
  let mdict := parse_message data in
  match mdict !! "t" with
  | None => Raise (KeyError "t")
  | Some t =>
      if decide (t = "r") then
        match mdict !! "s" with
        | None => Raise (KeyError "s")
        | Some s =>
            match callbacks w !! s with
            | Some f =>
                match mdict !! "r" with
                | Some r => run_callback env f r w
                | None => Raise (KeyError "r")
                end
            | None => mret w
            end
        end
      else
        match last (List.filter (Py.startswith "-n") (Py.split Py.NUL data)) with
        | Some field => cb_reply_async (Py.drop 3 field) w
        | None => Raise IndexError
        end
  end.

(** [cb_notify]: [atom] is the event's atom, [message] the data read (and
    deleted) from the window's own "Comm" property. *)
Definition cb_notify (env : Env) (atom : option string) (message : option string)
    (w : VimWindow) : result (bool * VimWindow) :=
  match atom with
  | Some a =>
      if decide (a = "Comm") then
        match message with
        | Some data => w' ← cb_reply env data w; mret (true, w')
        | None => mret (true, w)
        end
      else mret (true, w)
  | None => mret (true, w)
  end.

(** ** The commands built on [send_ex] *)

(** The characters [escape_filename] puts a backslash in front of, in the
    order of its loop: backslash, question mark, star, space, the two
    quotes, opening bracket, tab, dollar. *)
Definition escaped_chars : list ascii :=
  ["\"; "?"; "*"; " "; "'"; "034"; "["; "009"; "$"]%char.

Definition escape_filename (name : string) : string :=
  foldl (λ nm s, Py.replace s (String "\" (String s EmptyString)) nm) name escaped_chars.

Definition close_buffer (env : Env) (server : string) (w : VimWindow) : result VimWindow :=
  send_ex env server "confirm bw" w.

Definition open_file (env : Env) (server name : string) (w : VimWindow)
    : result VimWindow :=
  send_ex env server ("confirm e " +:+ escape_filename name) w.

Definition preview_file (env : Env) (server fn : string) (w : VimWindow)
    : result VimWindow :=
  w1 ← send_ex env server "pc" w;
  w2 ← send_ex env server "set nopreviewwindow" w1;
  send_ex env server ("pedit " +:+ fn) w2.

Definition quit (env : Env) (server : string) (w : VimWindow) : result VimWindow :=
  send_ex env server "q" w.

(** ** Vocabulary of the statements *)

(** The serial is one the protocol can carry. *)
Definition serial_in_range (w : VimWindow) : Prop := 1 ≤ serial w ≤ 65530.

(** Every key of the callback table is the decimal text of such a serial. *)
Definition keys_are_serials (w : VimWindow) : Prop :=
  ∀ k, is_Some (callbacks w !! k) → ∃ n, 1 ≤ n ≤ 65530 ∧ k = Py.fmt_d n.

Definition well_formed (w : VimWindow) : Prop :=
  serial_in_range w ∧ keys_are_serials w.

(** A step that deletes nothing from the callback table: every key is
    still a key, the frames sent so far are still there, and when no frame
    was added the table is the same. *)
Definition table_kept (w w' : VimWindow) : Prop :=
  (∀ k, is_Some (callbacks w !! k) → is_Some (callbacks w' !! k)) ∧
  ∃ sent, comm w' = comm w ++ sent ∧ (sent = [] → callbacks w' = callbacks w).

(** The windows a process can be in: a fresh one, and what sends, inbound
    messages and discovery ticks that return make of it, in any world. *)
Inductive reachable : VimWindow → Prop :=
| reach_init (env : Env) (own_xid : Z) : reachable (do_init env own_xid)
| reach_send (env : Env) (server message : string) (asexpr : bool)
    (cb : option callback) (w w' : VimWindow) :
    reachable w → send_message env server message asexpr cb w = Ok w' → reachable w'
| reach_notify (env : Env) (atom message : option string) (b : bool) (w w' : VimWindow) :
    reachable w → cb_notify env atom message w = Ok (b, w') → reachable w'
| reach_tick (env : Env) (b : bool) (w w' : VimWindow) :
    reachable w → fetch_serverlist env w = Ok (b, w') → reachable w'.

(** What one pass over [name] that puts a backslash in front of every
    character of [escaped_chars] produces. *)
Fixpoint escape_each (name : string) : string :=
  match name with
  | EmptyString => EmptyString
  | String c rest =>
      if bool_decide (c ∈ escaped_chars) then String "\" (String c (escape_each rest))
      else String c (escape_each rest)
  end.

(** The text of a registry entry as a Vim server writes it. *)
Definition registry_entry (wid : Z) (servername : string) : string :=
  Py.fmt_x wid +:+ " " +:+ servername.

(** [s] is a token: not empty, no whitespace in it. *)
Fixpoint no_space (s : string) : bool :=
  match s with
  | EmptyString => true
  | String c s' => negb (Ascii.is_space c) && no_space s'
  end.

Definition is_token (s : string) : Prop := s ≠ "" ∧ no_space s = true.

(** The peer window [send_message] writes to: the name is registered with a
    non-zero id, the id resolves to a window, the window has a "Vim"
    property. *)
Definition resolve_peer (env : Env) (servername : string) : option Z :=
  match get_server_wid env servername with
  | Ok (Some wid) =>
      match get_server_window env wid with
      | Some sw => match vim_property sw with Some _ => Some wid | None => None end
      | None => None
      end
  | _ => None
  end.

(** The root registry can be read: every entry has an id and a name. *)
Definition registry_readable (env : Env) : Prop :=
  ∃ servers, get_rootwindow_serverlist env = Ok servers.

(** An expression call, with the world it is made in. *)
Record expr_call := ExprCall {
  call_env : Env;
  call_server : string;
  call_message : string;
  call_callback : option callback
}.

Definition issue_calls (calls : list expr_call) (w : VimWindow) : result VimWindow :=
  for_each (λ w0 c,
      send_expr (call_env c) (call_server c) (call_message c) (call_callback c) w0)
    calls w.

(** A step that leaves the discovery state and every application-facing
    trace as they were. *)
Definition quiet_step (w w' : VimWindow) : Prop :=
  oldservers w' = oldservers w ∧ events w' = events w ∧
  server_cwds w' = server_cwds w ∧ logs w' = logs w ∧
  client_calls w' = client_calls w.

(** The loop of [gotservers] over the discovered names. *)
Definition fetch_missing_cwds (env : Env) (serverlist : list string) (w : VimWindow)
    : result VimWindow :=
  for_each (λ w0 server,
      match server_cwds w0 !! server with
      | None => fetch_cwd env server w0
      | Some _ => mret w0
      end) serverlist w.

(** The notification [feed_serverlist] hands to the application. *)
Definition serverlist_event (serverlist : list string) : event :=
  Event "serverlist" [PStrList serverlist].

(** [s] has no occurrence of [c]. *)
Definition free_of (c : ascii) (s : string) : Prop := Py.count c s = 0%nat.

(** A world in which [editor_A] is registered under window 0x1f4 and that
    window is a live Vim; [ghost] is registered but its window is gone. *)
Definition demo_registry : string :=
  "1f4 editor_A" +:+ String Py.NUL "2a ghost" +:+ String Py.NUL "".

Definition demo_env : Env :=
  MkEnv (Some demo_registry)
    (λ wid, if wid =? 500 then Some (MkGdkWindow (Some "6.0")) else None)
    (λ _, WaitReturns 0 0) (4242, 7) "1122334455.66" "/home/user".

(** A world with no registry at all. *)
Definition bare_env : Env :=
  MkEnv None (λ _, None) (λ _, WaitOSError) (4242, 7) "1122334455.66" "/home/user".

(** ** Facts about the string primitives *)

Section StringFacts.

Lemma append_cons c a b : String c a +:+ b = String c (a +:+ b).
Proof. reflexivity. Qed.

Lemma append_nil b : "" +:+ b = b.
Proof. reflexivity. Qed.

Lemma count_append c a b : Py.count c (a +:+ b) = (Py.count c a + Py.count c b)%nat.
Proof.
  induction a as [|x a IH]; [done|].
  rewrite append_cons. simpl. destruct (Ascii.eqb x c); simpl; lia.
Qed.

Lemma free_of_append c a b : free_of c a → free_of c b → free_of c (a +:+ b).
Proof. unfold free_of. rewrite count_append. lia. Qed.

Lemma free_of_cons c x s : x ≠ c → free_of c s → free_of c (String x s).
Proof.
  unfold free_of. intros Hx Hs. simpl.
  destruct (Ascii.eqb_spec x c); [done|exact Hs].
Qed.

Lemma free_of_cons_inv c x s : free_of c (String x s) → x ≠ c ∧ free_of c s.
Proof.
  unfold free_of. simpl. destruct (Ascii.eqb_spec x c); [done|]. by split.
Qed.

Lemma split_free c s : free_of c s → Py.split c s = [s].
Proof.
  induction s as [|x s IH]; [done|].
  intros [Hx Hs]%free_of_cons_inv. simpl.
  destruct (Ascii.eqb_spec x c); [done|]. by rewrite IH.
Qed.

Lemma split_append_sep c a b :
  free_of c a → Py.split c (a +:+ String c b) = a :: Py.split c b.
Proof.
  induction a as [|x a IH].
  - intros _. rewrite append_nil. simpl. by rewrite Ascii.eqb_refl.
  - intros [Hx Ha]%free_of_cons_inv. rewrite append_cons. simpl.
    destruct (Ascii.eqb_spec x c); [done|]. by rewrite IH.
Qed.

Lemma hex_digits_free c d :
  c = Py.NUL ∨ c = " "%char →
  free_of c (HexadecimalString.NilEmpty.string_of_uint d).
Proof.
  intros Hc. induction d; simpl; [done|..];
    (apply free_of_cons; [destruct Hc as [-> | ->]; discriminate | assumption]).
Qed.

Lemma dec_digits_free c d :
  c = Py.NUL ∨ c = " "%char →
  free_of c (DecimalString.NilEmpty.string_of_uint d).
Proof.
  intros Hc. induction d; simpl; [done|..];
    (apply free_of_cons; [destruct Hc as [-> | ->]; discriminate | assumption]).
Qed.

Lemma fmt_x_free c n : c = Py.NUL ∨ c = " "%char → free_of c (Py.fmt_x n).
Proof.
  intros Hc. unfold Py.fmt_x.
  assert (free_of c (HexadecimalString.NilZero.string_of_uint
                       (N.to_hex_uint (Z.abs_N n)))) as Hd.
  { unfold HexadecimalString.NilZero.string_of_uint.
    destruct (N.to_hex_uint (Z.abs_N n)) eqn:E;
      try (rewrite <- E; by apply hex_digits_free).
    apply free_of_cons; [destruct Hc as [-> | ->]; discriminate | done]. }
  destruct (n <? 0); [|exact Hd].
  apply free_of_cons; [destruct Hc as [-> | ->]; discriminate | exact Hd].
Qed.

Lemma fmt_d_free c n : c = Py.NUL ∨ c = " "%char → free_of c (Py.fmt_d n).
Proof.
  intros Hc. unfold Py.fmt_d, DecimalString.NilZero.string_of_int.
  assert (∀ d, free_of c (DecimalString.NilZero.string_of_uint d)) as Hd.
  { intros d. unfold DecimalString.NilZero.string_of_uint.
    destruct d eqn:E; try (rewrite <- E; by apply dec_digits_free).
    apply free_of_cons; [destruct Hc as [-> | ->]; discriminate | done]. }
  destruct (Z.to_int n); [apply Hd|].
  apply free_of_cons; [destruct Hc as [-> | ->]; discriminate | apply Hd].
Qed.

End StringFacts.

(** ** The message codec *)

Section Codec.

Lemma append_assoc (a b c : string) : (a +:+ b) +:+ c = a +:+ (b +:+ c).
Proof.
  induction a as [|x a IH]; [done|]. rewrite !append_cons. by rewrite IH.
Qed.

(** Splitting undoes joining when no field holds the separator. *)
Lemma split_join sep f fs :
  Forall (free_of sep) (f :: fs) → Py.split sep (Py.join sep (f :: fs)) = f :: fs.
Proof.
  revert f. induction fs as [|g fs IH]; intros f Hall.
  - simpl. apply split_free. by inversion Hall.
  - inversion Hall as [|? ? Hf Hrest]; subst.
    change (Py.join sep (f :: g :: fs)) with (f +:+ String sep (Py.join sep (g :: fs))).
    rewrite split_append_sep by done. by rewrite IH.
Qed.

(** A frame is its six fields joined with NUL. *)
Lemma frame_text_join server cork message sourceid n :
  frame_text server cork message sourceid n =
  Py.join Py.NUL [""; cork; "-n " +:+ server; "-s " +:+ message;
                  "-r " +:+ Py.fmt_x sourceid +:+ " " +:+ Py.fmt_d n; ""].
Proof.
  unfold frame_text, Py.join.
  rewrite ?append_cons, ?append_nil, ?append_assoc.
  by rewrite ?append_cons, ?append_nil.
Qed.

(** What [parse_message] makes of the text of an outbound frame. *)
Lemma parse_frame_text server message sourceid n (asexpr : bool) :
  free_of Py.NUL server → free_of " " server →
  free_of Py.NUL message → free_of " " message →
  let cork := if asexpr then "c" else "k" in
  parse_message (frame_text server cork message sourceid n) =
  <["r" := Py.fmt_x sourceid]>
    (<["s" := message]> (<["n" := server]> (<["t" := cork]> ∅))).
Proof.
  intros Hs0 Hs1 Hm0 Hm1 cork.
  assert (free_of Py.NUL cork ∧ free_of " " cork) as [Hc0 Hc1]
    by (by destruct asexpr).
  pose proof (fmt_x_free Py.NUL sourceid (or_introl eq_refl)) as Hx0.
  pose proof (fmt_x_free " " sourceid (or_intror eq_refl)) as Hx1.
  pose proof (fmt_d_free Py.NUL n (or_introl eq_refl)) as Hd0.
  pose proof (fmt_d_free " " n (or_intror eq_refl)) as Hd1.
  unfold parse_message.
  rewrite frame_text_join, split_join
    by (repeat first [done | apply Forall_cons_2 | apply free_of_append]).
  cbn [fmap list_fmap].
  change ("-n " +:+ server) with (Py.join " " ["-n"; server]).
  change ("-s " +:+ message) with (Py.join " " ["-s"; message]).
  change ("-r " +:+ Py.fmt_x sourceid +:+ " " +:+ Py.fmt_d n)
    with (Py.join " " ["-r"; Py.fmt_x sourceid; Py.fmt_d n]).
  rewrite !split_join by (repeat first [done | apply Forall_cons_2]).
  rewrite (split_free " " cork) by done.
  subst cork. by destruct asexpr.
Qed.

End Codec.

(** C1 (amended).  For an outbound frame whose target and payload hold
    neither a NUL nor a space, decoding the text produced by
    [generate_message] yields exactly the mapping with the cork under [t],
    the target under [n], the payload under [s] and the source id, in
    hexadecimal, under [r].  The serial is not part of the decoded
    mapping: the value of an attribute ends at the first space of its
    field. *)
Theorem C1_decode_of_generated_frame (w : VimWindow) (server message : string)
    (sourceid : Z) (asexpr : bool) :
  free_of Py.NUL server → free_of " " server →
  free_of Py.NUL message → free_of " " message →
  let cork := if asexpr then "c" else "k" in
  parse_message (generate_message server cork message sourceid w).1 =
  <["r" := Py.fmt_x sourceid]>
    (<["s" := message]> (<["n" := server]> (<["t" := cork]> ∅))).
Proof.
  intros Hs0 Hs1 Hm0 Hm1 cork. unfold generate_message. cbn [fst].
  by apply parse_frame_text.
Qed.

Lemma C1_decode_of_generated_frame_witness :
  parse_message
    (generate_message "editor_A" "c" "getcwd()" 500 (do_init demo_env 500)).1 =
  <["r" := "1f4"]> (<["s" := "getcwd()"]> (<["n" := "editor_A"]> (<["t" := "c"]> ∅))).
Proof.
  apply (C1_decode_of_generated_frame (do_init demo_env 500)
           "editor_A" "getcwd()" 500 true); reflexivity.
Defined.

(** C1 as stated fails: two frames that differ in their serial only decode
    to the same mapping, whose [r] entry is the hexadecimal source id alone;
    and a payload with a space in it (the expression of [change_cursor]) is
    cut at the space. *)
Lemma C1_serial_is_not_decoded :
  let w := do_init demo_env 500 in
  let f2 := (generate_message "editor_A" "c" "getcwd()" 500 w).1 in
  let f3 := (generate_message "editor_A" "c" "getcwd()" 500 (set_serial 2 w)).1 in
  let fc := (generate_message "editor_A" "c" "cursor(3, 4)" 500 w).1 in
  f2 = frame_text "editor_A" "c" "getcwd()" 500 2 ∧
  f3 = frame_text "editor_A" "c" "getcwd()" 500 3 ∧
  f2 ≠ f3 ∧
  parse_message f2 = parse_message f3 ∧
  parse_message f2 !! "r" = Some "1f4" ∧
  parse_message f2 !! "r" ≠ Some "1f4 2" ∧
  parse_message fc !! "s" = Some "cursor(3,".
Proof.
  vm_compute. repeat split; try reflexivity; discriminate.
Qed.

(** ** Sending *)

Section Sending.

Context (env : Env).

(** A send to a peer that resolves: one frame is appended to the peer's
    "Comm" property, the serial has moved on, and the callback table grows
    only for an expression call that comes with a callable. *)
Lemma send_message_reachable server message asexpr cb w wid :
  resolve_peer env server = Some wid →
  send_message env server message asexpr cb w =
  Ok (let n := next_serial (serial w) in
      let cork := if asexpr then "c" else "k" in
      let w2 := property_change_comm wid
                  (frame_text server cork message (xid w) n) (set_serial n w) in
      match asexpr, cb with
      | true, Some f => set_callbacks (<[Py.fmt_d n := f]> (callbacks w)) w2
      | _, _ => w2
      end).
Proof.
  unfold resolve_peer, send_message.
  destruct (get_server_wid env server) as [[wid'|]|]; try done. cbn.
  destruct (get_server_window env wid') as [sw|]; try done.
  destruct (vim_property sw); try done.
  intros [= ->]. unfold generate_message.
  by destruct asexpr, cb.
Qed.

(** A send to a peer that does not resolve changes nothing, provided the
    registry could be read at all. *)
Lemma send_message_unreachable server message asexpr cb w :
  registry_readable env → resolve_peer env server = None →
  send_message env server message asexpr cb w = Ok w.
Proof.
  intros [servers Hreg]. unfold resolve_peer, send_message, get_server_wid.
  rewrite Hreg. cbn.
  destruct (servers !! server) as [wid|]; [|done].
  destruct (wid =? 0); [done|]. cbn.
  destruct (get_server_window env wid) as [sw|]; [|done].
  by destruct (vim_property sw).
Qed.

End Sending.

Lemma next_serial_mod (k : Z) :
  0 ≤ k → next_serial (k mod 65530 + 1) = (k + 1) mod 65530 + 1.
Proof.
  intros Hk. unfold next_serial.
  pose proof (Z.mod_pos_bound k 65530 ltac:(lia)) as Hb.
  destruct (Z.gtb_spec (k mod 65530 + 1 + 1) 65530) as [Hgt|Hle].
  - assert (k mod 65530 = 65529) as Hm by lia.
    rewrite <- Zplus_mod_idemp_l, Hm. reflexivity.
  - rewrite <- Zplus_mod_idemp_l. rewrite (Z.mod_small (k mod 65530 + 1)); lia.
Qed.

(** The counter wraps right after 65530. *)
Lemma next_serial_wraps :
  next_serial 1 = 2 ∧ next_serial 65529 = 65530 ∧ next_serial 65530 = 1.
Proof. repeat split; reflexivity. Qed.

(** The frames of a run of expression calls, from a window whose serial
    counter has been stepped [k] times. *)
Lemma issue_calls_frames (calls : list expr_call) (k : nat) (w : VimWindow) :
  Forall (λ c, is_Some (resolve_peer (call_env c) (call_server c))) calls →
  serial w = Z.of_nat k mod 65530 + 1 →
  ∃ w', issue_calls calls w = Ok w' ∧ xid w' = xid w ∧
        (comm w').*2 = (comm w).*2 ++
          imap (λ i c, frame_text (call_server c) "c" (call_message c) (xid w)
                         (Z.of_nat (k + S i) mod 65530 + 1)) calls.
Proof.
  revert k w. induction calls as [|c calls IH]; intros k w Hall Hser.
  - exists w. cbn. by rewrite app_nil_r.
  - inversion Hall as [|? ? [wid Hwid] Hrest]; subst.
    unfold issue_calls. cbn [for_each].
    change (send_expr (call_env c) (call_server c) (call_message c) (call_callback c) w)
      with (send_message (call_env c) (call_server c) (call_message c) true
              (call_callback c) w).
    rewrite (send_message_reachable _ _ _ _ _ _ wid Hwid). cbn [mbind result_bind].
    fold (issue_calls calls).
    set (n := next_serial (serial w)).
    set (w1 := match call_callback c with
               | Some f => _
               | None => _
               end).
    assert (serial w1 = Z.of_nat (S k) mod 65530 + 1) as Hser1.
    { subst w1 n. rewrite Hser, next_serial_mod by lia.
      replace (Z.of_nat (S k)) with (Z.of_nat k + 1) by lia.
      by destruct (call_callback c). }
    assert (xid w1 = xid w) as Hxid by (subst w1; by destruct (call_callback c)).
    assert ((comm w1).*2 = (comm w).*2 ++
              [frame_text (call_server c) "c" (call_message c) (xid w) n]) as Hcomm.
    { subst w1. destruct (call_callback c); cbn; by rewrite fmap_app. }
    destruct (IH (S k) w1 Hrest Hser1) as (w' & Hrun & Hxid' & Hframes).
    exists w'. split; [exact Hrun|]. split; [congruence|].
    rewrite Hframes, Hcomm, Hxid, <- app_assoc. f_equal. cbn [imap app].
    f_equal.
    + subst n. rewrite Hser, next_serial_mod by lia. do 2 f_equal. lia.
    + apply imap_ext. intros i c' _. cbn. do 3 f_equal. lia.
Qed.

(** C2 (amended).  The counter starts at 1 and is stepped before it is
    used: the expression calls of a fresh window, each to a peer that
    resolves, put one frame each on the transport, the [i]-th of them
    (counting from 1) with serial [i mod 65530 + 1]: 2, 3, ..., 65530, then
    1, 2, ... *)
Theorem C2_serials_of_expression_calls (env : Env) (own_xid : Z)
    (calls : list expr_call) :
  Forall (λ c, is_Some (resolve_peer (call_env c) (call_server c))) calls →
  ∃ w', issue_calls calls (do_init env own_xid) = Ok w' ∧
        (comm w').*2 =
          imap (λ i c, frame_text (call_server c) "c" (call_message c) own_xid
                         (Z.of_nat (S i) mod 65530 + 1)) calls.
Proof.
  intros Hall.
  destruct (issue_calls_frames calls 0 (do_init env own_xid) Hall eq_refl)
    as (w' & Hrun & _ & Hframes).
  exists w'. split; [exact Hrun|]. exact Hframes.
Qed.

Lemma C2_serials_of_expression_calls_witness :
  ∃ w', issue_calls [ExprCall demo_env "editor_A" "serverlist()" (Some CbForeground);
                     ExprCall demo_env "editor_A" "getcwd()" (Some (CbGotCwd "editor_A"))]
          (do_init demo_env 500) = Ok w' ∧
        (comm w').*2 = [frame_text "editor_A" "c" "serverlist()" 500 2;
                        frame_text "editor_A" "c" "getcwd()" 500 3].
Proof.
  apply (C2_serials_of_expression_calls demo_env 500
           [ExprCall demo_env "editor_A" "serverlist()" (Some CbForeground);
            ExprCall demo_env "editor_A" "getcwd()" (Some (CbGotCwd "editor_A"))]).
  repeat constructor; vm_compute; eauto.
Defined.

(** C2 as stated fails: from a fresh window the first expression call
    carries serial 2 and the second carries serial 3. *)
Lemma C2_second_call_carries_three :
  ∃ w1 w2,
    send_expr demo_env "editor_A" "serverlist()" (Some CbForeground)
      (do_init demo_env 500) = Ok w1 ∧
    send_expr demo_env "editor_A" "getcwd()" (Some (CbGotCwd "editor_A")) w1 = Ok w2 ∧
    comm w1 = [(500, frame_text "editor_A" "c" "serverlist()" 500 2)] ∧
    comm w2 = comm w1 ++ [(500, frame_text "editor_A" "c" "getcwd()" 500 3)] ∧
    frame_text "editor_A" "c" "serverlist()" 500 2 ≠
      frame_text "editor_A" "c" "serverlist()" 500 1 ∧
    frame_text "editor_A" "c" "getcwd()" 500 3 ≠
      frame_text "editor_A" "c" "getcwd()" 500 2.
Proof.
  eexists _, _. vm_compute. repeat split; try reflexivity; discriminate.
Qed.

(** C3, at the failing input.  A key send from a fresh window to a peer
    that resolves leaves the callback table empty, but the serial counter
    moves from 1 to 2 and the frame carries the new serial: [cork] is the
    non-empty string ['k'], which [if cork:] takes for true. *)
Theorem C3_key_send_steps_the_serial :
  let w := do_init demo_env 500 in
  serial w = 1 ∧
  ∃ w', send_keys demo_env "editor_A" ":q" w = Ok w' ∧
        serial w' = 2 ∧
        callbacks w' = ∅ ∧
        comm w' = [(500, frame_text "editor_A" "k" ":q" 500 2)].
Proof.
  split; [reflexivity|]. eexists. vm_compute. repeat split; reflexivity.
Qed.

(** ** Discovery *)

Section Discovery.

Context (env : Env).

Lemma send_message_quiet server message asexpr cb w w' :
  send_message env server message asexpr cb w = Ok w' → quiet_step w w'.
Proof.
  unfold send_message.
  destruct (get_server_wid env server) as [[wid|]|e]; cbn; try discriminate;
    try (intros [= <-]; by repeat split).
  destruct (get_server_window env wid) as [sw|];
    try (intros [= <-]; by repeat split).
  destruct (vim_property sw); try (intros [= <-]; by repeat split).
  unfold generate_message.
  destruct asexpr, cb; cbn; intros [= <-]; by repeat split.
Qed.

Lemma send_message_ok server message asexpr cb w :
  registry_readable env → ∃ w', send_message env server message asexpr cb w = Ok w'.
Proof.
  intros Hreg. destruct (resolve_peer env server) as [wid|] eqn:Hpeer.
  - rewrite (send_message_reachable _ _ _ _ _ _ wid Hpeer). eauto.
  - rewrite send_message_unreachable by done. eauto.
Qed.

Lemma quiet_step_trans w1 w2 w3 : quiet_step w1 w2 → quiet_step w2 w3 → quiet_step w1 w3.
Proof. unfold quiet_step. intuition congruence. Qed.

Lemma fetch_missing_cwds_quiet serverlist w w' :
  fetch_missing_cwds env serverlist w = Ok w' → quiet_step w w'.
Proof.
  unfold fetch_missing_cwds. revert w.
  induction serverlist as [|server l IH]; intros w; cbn [for_each].
  - intros [= <-]. by repeat split.
  - destruct (server_cwds w !! server).
    + cbn. apply IH.
    + destruct (fetch_cwd env server w) as [w1|e] eqn:Hfetch; cbn; [|discriminate].
      intros Hrest. eapply quiet_step_trans; [|by apply IH].
      by eapply send_message_quiet.
Qed.

Lemma fetch_missing_cwds_ok serverlist w :
  registry_readable env → ∃ w', fetch_missing_cwds env serverlist w = Ok w'.
Proof.
  intros Hreg. unfold fetch_missing_cwds. revert w.
  induction serverlist as [|server l IH]; intros w; cbn [for_each]; [by eexists|].
  destruct (server_cwds w !! server).
  - cbn. apply IH.
  - destruct (send_message_ok server "getcwd()" true (Some (CbGotCwd server)) w Hreg)
      as [w1 Hw1].
    unfold fetch_cwd, send_expr. rewrite Hw1. cbn. apply IH.
Qed.

(** [gotservers] is the loop followed by the comparison with the list
    delivered last. *)
Lemma gotservers_unfold serverlist w :
  gotservers env serverlist w =
  w1 ← fetch_missing_cwds env serverlist w;
  mret (match oldservers w1 with
        | Some old =>
            if decide (serverlist = old) then w1
            else feed_serverlist serverlist (set_oldservers (Some serverlist) w1)
        | None => feed_serverlist serverlist (set_oldservers (Some serverlist) w1)
        end).
Proof. reflexivity. Qed.

(** A cycle that completes: it notifies exactly when the list differs, as
    a list, from the one delivered last, and then remembers the list. *)
Lemma gotservers_result serverlist w w' :
  gotservers env serverlist w = Ok w' →
  oldservers w' = Some serverlist ∧
  events w' = events w ++
    (if decide (oldservers w = Some serverlist) then []
     else [serverlist_event serverlist]).
Proof.
  rewrite gotservers_unfold.
  destruct (fetch_missing_cwds env serverlist w) as [w1|e] eqn:Hloop; cbn; [|discriminate].
  apply fetch_missing_cwds_quiet in Hloop as (Hold & Hev & _).
  intros [= <-]. rewrite <- Hold, <- Hev.
  destruct (oldservers w1) as [old|] eqn:Hw1.
  - destruct (decide (serverlist = old)) as [->|Hne].
    + rewrite decide_True by done. by rewrite app_nil_r.
    + by rewrite decide_False by congruence.
  - by rewrite decide_False.
Qed.

Lemma gotservers_ok serverlist w :
  registry_readable env → ∃ w', gotservers env serverlist w = Ok w'.
Proof.
  intros Hreg. rewrite gotservers_unfold.
  destruct (fetch_missing_cwds_ok serverlist w Hreg) as [w1 ->]. cbn. eauto.
Qed.

End Discovery.

(** C5 (amended).  The comparison with the list delivered last is a
    comparison of lists, order included.  For two consecutive discovery
    cycles whose filtered server lists are the same list, the notification
    fires at most once: on the first cycle exactly when that list differs
    from the one delivered last, and not on the second. *)
Theorem C5_same_list_notifies_at_most_once (env1 env2 : Env) (w : VimWindow)
    (reply1 reply2 : string) :
  registry_readable env1 → registry_readable env2 →
  visible_servers reply1 = visible_servers reply2 →
  ∃ w1 w2,
    run_callback env1 CbHiddenServerlist reply1 w = Ok w1 ∧
    run_callback env2 CbHiddenServerlist reply2 w1 = Ok w2 ∧
    events w1 = events w ++
      (if decide (oldservers w = Some (visible_servers reply1)) then []
       else [serverlist_event (visible_servers reply1)]) ∧
    events w2 = events w1.
Proof.
  intros Hreg1 Hreg2 Hsame. cbn [run_callback].
  destruct (gotservers_ok env1 (visible_servers reply1) w Hreg1) as [w1 Hw1].
  destruct (gotservers_ok env2 (visible_servers reply2) w1 Hreg2) as [w2 Hw2].
  exists w1, w2. repeat split; try done.
  - by apply gotservers_result in Hw1 as [_ ->].
  - apply gotservers_result in Hw1 as [Hold1 _].
    apply gotservers_result in Hw2 as [_ ->].
    rewrite Hold1, Hsame, decide_True by done. by rewrite app_nil_r.
Qed.

Lemma C5_same_list_notifies_at_most_once_witness :
  ∃ w1 w2,
    run_callback demo_env CbHiddenServerlist "editor_A" (do_init demo_env 500) = Ok w1 ∧
    run_callback demo_env CbHiddenServerlist "editor_A" w1 = Ok w2 ∧
    events w1 = [serverlist_event ["editor_A"]] ∧
    events w2 = events w1.
Proof.
  apply (C5_same_list_notifies_at_most_once demo_env demo_env (do_init demo_env 500)
           "editor_A" "editor_A").
  - eexists. vm_compute. reflexivity.
  - eexists. vm_compute. reflexivity.
  - reflexivity.
Defined.

(** C5 as stated fails: two cycles that report the same two names in a
    different order notify the application twice. *)
Lemma C5_reordered_list_notifies_twice :
  let reply1 := "a" +:+ String Py.LF "b" in
  let reply2 := "b" +:+ String Py.LF "a" in
  visible_servers reply1 = ["a"; "b"] ∧
  visible_servers reply2 = ["b"; "a"] ∧
  visible_servers reply1 ≡ₚ visible_servers reply2 ∧
  ∃ w1 w2,
    run_callback bare_env CbHiddenServerlist reply1 (do_init bare_env 500) = Ok w1 ∧
    run_callback bare_env CbHiddenServerlist reply2 w1 = Ok w2 ∧
    events w1 = [serverlist_event ["a"; "b"]] ∧
    events w2 = [serverlist_event ["a"; "b"]; serverlist_event ["b"; "a"]].
Proof.
  split; [reflexivity|]. split; [reflexivity|]. split; [apply perm_swap|].
  eexists _, _. vm_compute. repeat split; reflexivity.
Qed.

(** C10.  As long as no list has been delivered ([oldservers] is [None], as
    [do_init] leaves it), a discovery cycle that completes delivers its
    list, whatever the list is; and the cycle does complete whenever the
    root registry can be read. *)
Theorem C10_first_cycle_always_notifies (env : Env) (w : VimWindow) (reply : string) :
  oldservers w = None →
  (∀ w', run_callback env CbHiddenServerlist reply w = Ok w' →
         events w' = events w ++ [serverlist_event (visible_servers reply)]) ∧
  (registry_readable env →
   ∃ w', run_callback env CbHiddenServerlist reply w = Ok w' ∧
         events w' = events w ++ [serverlist_event (visible_servers reply)]).
Proof.
  intros Hnone. cbn [run_callback].
  assert (∀ w', gotservers env (visible_servers reply) w = Ok w' →
            events w' = events w ++ [serverlist_event (visible_servers reply)]) as Hfires.
  { intros w' Hw'. apply gotservers_result in Hw' as [_ ->].
    by rewrite Hnone, decide_False. }
  split; [exact Hfires|].
  intros Hreg. destruct (gotservers_ok env (visible_servers reply) w Hreg) as [w' Hw'].
  exists w'. split; [exact Hw'|]. by apply Hfires.
Qed.

Lemma C10_first_cycle_always_notifies_witness :
  oldservers (do_init demo_env 500) = None ∧
  ∃ w', run_callback demo_env CbHiddenServerlist "" (do_init demo_env 500) = Ok w' ∧
        events w' = [serverlist_event []].
Proof.
  split; [reflexivity|].
  apply (C10_first_cycle_always_notifies demo_env (do_init demo_env 500) "").
  - reflexivity.
  - eexists. vm_compute. reflexivity.
Defined.

(** ** The dispatcher *)

Section Dispatcher.

Context (env : Env).

Lemma split1_append_sep c a b :
  free_of c a → Py.split1 c (a +:+ String c b) = [a; b].
Proof.
  induction a as [|x a IH].
  - intros _. rewrite append_nil. cbn. by rewrite Ascii.eqb_refl.
  - intros [Hx Ha]%free_of_cons_inv. rewrite append_cons. cbn.
    destruct (Ascii.eqb_spec x c); [done|]. by rewrite IH.
Qed.

Lemma count_append_sep c a b :
  Py.count c (a +:+ String c b) = S (Py.count c a + Py.count c b).
Proof. rewrite count_append. cbn. rewrite Ascii.eqb_refl. lia. Qed.

(** A string with a [c] in it is a [c]-free head, the [c], and a tail. *)
Lemma first_occurrence c s :
  Py.count c s ≠ 0%nat → ∃ a b, s = a +:+ String c b ∧ free_of c a.
Proof.
  induction s as [|x s IH]; [done|]. cbn.
  destruct (Ascii.eqb_spec x c) as [->|Hx].
  - intros _. by exists "", s.
  - intros (a & b & -> & Ha)%IH. exists (String x a), b.
    split; [done|]. by apply free_of_cons.
Qed.

Lemma cb_reply_async_comma evt d w :
  free_of "," evt →
  cb_reply_async (evt +:+ String "," d) w = Ok (do_evt evt (PStr <$> Py.split "," d) w).
Proof.
  intros Hevt. unfold cb_reply_async.
  by rewrite count_append_sep, split1_append_sep.
Qed.

Lemma cb_reply_async_no_comma data w :
  free_of "," data → cb_reply_async data w = Ok (do_log "bad async reply" data 10 w).
Proof. intros Hfree. unfold cb_reply_async. by rewrite Hfree. Qed.

(** [cb_reply_async] never raises and never touches the callback table. *)
Lemma cb_reply_async_ok data w :
  ∃ w', cb_reply_async data w = Ok w' ∧ callbacks w' = callbacks w ∧ serial w' = serial w.
Proof.
  destruct (decide (Py.count "," data = 0%nat)) as [Hfree|Hcomma].
  - rewrite cb_reply_async_no_comma by done. by eexists.
  - apply first_occurrence in Hcomma as (evt & d & -> & Hevt).
    rewrite cb_reply_async_comma by done. by eexists.
Qed.

(** The branch of [cb_reply] for frames that are not replies. *)
Lemma cb_reply_notification data ty field w :
  parse_message data !! "t" = Some ty → ty ≠ "r" →
  last (List.filter (Py.startswith "-n") (Py.split Py.NUL data)) = Some field →
  cb_reply env data w = cb_reply_async (Py.drop 3 field) w.
Proof.
  intros Hty Hnr Hfield. unfold cb_reply. rewrite Hty.
  rewrite decide_False by done. by rewrite Hfield.
Qed.

(** The branch of [cb_reply] for replies. *)
Lemma cb_reply_reply data s w :
  parse_message data !! "t" = Some "r" → parse_message data !! "s" = Some s →
  cb_reply env data w =
  match callbacks w !! s with
  | Some f =>
      match parse_message data !! "r" with
      | Some r => run_callback env f r w
      | None => Raise (KeyError "r")
      end
  | None => Ok w
  end.
Proof.
  intros Hty Hs. unfold cb_reply. rewrite Hty, Hs. by rewrite decide_True.
Qed.

End Dispatcher.

(** ** What dispatching does to the callback table *)

Section TableKept.

Context (env : Env).

Lemma table_kept_same w w' :
  callbacks w' = callbacks w → comm w' = comm w → table_kept w w'.
Proof.
  intros Hcb Hcomm. split; [by rewrite Hcb|].
  exists []. by rewrite app_nil_r.
Qed.

Lemma table_kept_trans w1 w2 w3 : table_kept w1 w2 → table_kept w2 w3 → table_kept w1 w3.
Proof.
  intros [Hk1 (s1 & Hc1 & He1)] [Hk2 (s2 & Hc2 & He2)]. split; [by auto|].
  exists (s1 ++ s2). split; [by rewrite Hc2, Hc1, app_assoc|].
  intros [-> ->]%app_eq_nil. by rewrite He2, He1.
Qed.

Lemma send_message_table_kept server message asexpr cb w w' :
  send_message env server message asexpr cb w = Ok w' → table_kept w w'.
Proof.
  unfold send_message.
  destruct (get_server_wid env server) as [[wid|]|e]; cbn; try discriminate;
    try (intros [= <-]; by apply table_kept_same).
  destruct (get_server_window env wid) as [sw|];
    try (intros [= <-]; by apply table_kept_same).
  destruct (vim_property sw); try (intros [= <-]; by apply table_kept_same).
  unfold generate_message.
  destruct asexpr, cb as [f|]; cbn; intros [= <-]; (split; [|by eexists; split]); cbn;
    try done.
  intros k Hk. apply lookup_insert_is_Some'. by right.
Qed.

Lemma fetch_missing_cwds_table_kept serverlist w w' :
  fetch_missing_cwds env serverlist w = Ok w' → table_kept w w'.
Proof.
  unfold fetch_missing_cwds. revert w.
  induction serverlist as [|server l IH]; intros w; cbn [for_each].
  - intros [= <-]. by apply table_kept_same.
  - destruct (server_cwds w !! server); [cbn; apply IH|].
    destruct (fetch_cwd env server w) as [w1|e] eqn:Hfetch; cbn; [|discriminate].
    intros Hrest. eapply table_kept_trans; [|by apply IH].
    by eapply send_message_table_kept.
Qed.

Lemma abspath_table_kept server filename w p w' :
  abspath env server filename w = Ok (p, w') → table_kept w w'.
Proof.
  unfold abspath.
  destruct (Py.startswith "/" filename); [intros [= _ <-]; by apply table_kept_same|].
  destruct (server_cwds w !! server); [intros [= _ <-]; by apply table_kept_same|].
  destruct (fetch_cwd env server w) as [w1|e] eqn:Hfetch; cbn; [|discriminate].
  intros [= _ <-]. by eapply send_message_table_kept.
Qed.

Lemma bufferlist_rows_table_kept server rows acc acc' :
  for_each (bufferlist_row env server) rows acc = Ok acc' → table_kept acc.2 acc'.2.
Proof.
  revert acc. induction rows as [|n rows IH]; intros acc; cbn [for_each].
  - intros [= <-]. by apply table_kept_same.
  - destruct (bufferlist_row env server acc n) as [acc1|e] eqn:Hrow; cbn; [|discriminate].
    intros Hrest. eapply table_kept_trans; [|by apply IH].
    unfold bufferlist_row in Hrow. destruct n as [|n0 [|n1 rest]]; try discriminate.
    + destruct (Py.startswith "E" n0); [|discriminate].
      injection Hrow as <-. by apply table_kept_same.
    + destruct (Py.startswith "E" n0); [injection Hrow as <-; by apply table_kept_same|].
      destruct (abspath env server n1 acc.2) as [[p w1]|e] eqn:Habs; cbn in Hrow;
        [|discriminate].
      injection Hrow as <-. cbn. by eapply abspath_table_kept.
Qed.

Lemma run_callback_table_kept f arg w w' :
  run_callback env f arg w = Ok w' → table_kept w w'.
Proof.
  destruct f as [|servername| |server|server|tag]; cbn [run_callback].
  - rewrite gotservers_unfold.
    destruct (fetch_missing_cwds env (visible_servers arg) w) as [w1|e] eqn:Hloop; cbn;
      [|discriminate].
    intros [= <-]. apply fetch_missing_cwds_table_kept in Hloop.
    eapply table_kept_trans; [exact Hloop|].
    destruct (oldservers w1) as [old|]; [destruct (decide _)|]; by apply table_kept_same.
  - intros [= <-]. by apply table_kept_same.
  - intros [= <-]. by apply table_kept_same.
  - destruct (Py.truthy arg); [|intros [= <-]; by apply table_kept_same].
    destruct (for_each _ _ _) as [[L w1]|e] eqn:Hrows; cbn; [|discriminate].
    intros [= <-]. apply bufferlist_rows_table_kept in Hrows.
    eapply table_kept_trans; [exact Hrows|]. by apply table_kept_same.
  - destruct (Py.split "," arg !! 1%nat) as [b1|]; [|discriminate].
    destruct (abspath env server b1 w) as [[p w1]|e] eqn:Habs; cbn; [|discriminate].
    intros [= <-]. apply abspath_table_kept in Habs.
    eapply table_kept_trans; [exact Habs|]. by apply table_kept_same.
  - intros [= <-]. by apply table_kept_same.
Qed.

Lemma cb_reply_async_table_kept data w w' :
  cb_reply_async data w = Ok w' → table_kept w w'.
Proof.
  destruct (decide (Py.count "," data = 0%nat)) as [Hfree|Hcomma].
  - rewrite cb_reply_async_no_comma by done. intros [= <-]. by apply table_kept_same.
  - apply first_occurrence in Hcomma as (evt & d & -> & Hevt).
    rewrite cb_reply_async_comma by done. intros [= <-]. by apply table_kept_same.
Qed.

Lemma cb_reply_table_kept data w w' :
  cb_reply env data w = Ok w' → table_kept w w'.
Proof.
  unfold cb_reply. destruct (parse_message data !! "t") as [ty|]; [|discriminate].
  destruct (decide (ty = "r")).
  - destruct (parse_message data !! "s") as [s|]; [|discriminate].
    destruct (callbacks w !! s) as [f|]; [|intros [= <-]; by apply table_kept_same].
    destruct (parse_message data !! "r") as [r|]; [|discriminate].
    apply run_callback_table_kept.
  - destruct (last _) as [field|]; [|discriminate].
    apply cb_reply_async_table_kept.
Qed.

End TableKept.

(** The callback of a discovery reply can replace its own entry: with the
    serial at 65530 and the [serverlist()] call pending under serial 1, the
    [getcwd()] call that [gotservers] makes for a new server wraps to
    serial 1 and is stored over it. *)
Lemma reply_callback_can_overwrite_its_entry :
  let w := set_serial 65530
             (set_callbacks {["1" := CbHiddenServerlist]} (do_init demo_env 500)) in
  let data := String Py.NUL "r" +:+ String Py.NUL "-s 1" +:+ String Py.NUL "-r editor_A" in
  ∃ w', cb_reply demo_env data w = Ok w' ∧
        serial w' = 1 ∧
        callbacks w' !! "1" = Some (CbGotCwd "editor_A").
Proof. eexists. vm_compute. repeat split; reflexivity. Qed.

(** C4 (amended).  A reply ([t] is [r]) that carries a serial looks the
    serial up in the callback table and, when there is an entry and the
    reply carries a result, calls the entry once with the result, on the
    table as it was: nothing is removed first.  Dispatching never deletes
    an entry: every serial that was pending is pending afterwards, and the
    table is exactly as before unless the callback itself sent frames (its
    own expression calls store their callbacks and can, at wraparound,
    replace the entry).  As long as the entry stands, a later reply with
    the same serial calls it again; it always stands after a callback that
    sends nothing ([gotcwd], the callback of [foreground], a callable of
    the application).  A reply whose serial has no entry changes nothing
    and calls nothing. *)
Theorem C4_reply_calls_the_entry_and_keeps_it (env : Env) (w : VimWindow)
    (data s : string) :
  parse_message data !! "t" = Some "r" →
  parse_message data !! "s" = Some s →
  (callbacks w !! s = None → cb_reply env data w = Ok w) ∧
  (∀ f r, callbacks w !! s = Some f → parse_message data !! "r" = Some r →
          cb_reply env data w = run_callback env f r w) ∧
  (∀ w', cb_reply env data w = Ok w' →
         (∀ k, is_Some (callbacks w !! k) → is_Some (callbacks w' !! k)) ∧
         (comm w' = comm w → callbacks w' = callbacks w)) ∧
  (∀ f w' env' data' r',
     callbacks w !! s = Some f → cb_reply env data w = Ok w' →
     callbacks w' !! s = Some f →
     parse_message data' !! "t" = Some "r" → parse_message data' !! "s" = Some s →
     parse_message data' !! "r" = Some r' →
     cb_reply env' data' w' = run_callback env' f r' w') ∧
  (∀ f r, callbacks w !! s = Some f → parse_message data !! "r" = Some r →
          f = CbForeground ∨ (∃ servername, f = CbGotCwd servername) ∨
          (∃ tag, f = CbClient tag) →
          ∃ w', cb_reply env data w = Ok w' ∧ callbacks w' = callbacks w ∧
                comm w' = comm w) ∧
  (∀ tag r, callbacks w !! s = Some (CbClient tag) →
            parse_message data !! "r" = Some r →
            ∃ w', cb_reply env data w = Ok w' ∧
                  callbacks w' = callbacks w ∧
                  client_calls w' = client_calls w ++ [(tag, r)]).
Proof.
  intros Hty Hs.
  split; [by rewrite (cb_reply_reply env data s w Hty Hs); intros ->|].
  split; [by rewrite (cb_reply_reply env data s w Hty Hs); intros f r -> ->|].
  split; [|split; [|split]].
  - intros w' [Hkeys (sent & Hsent & Hsame)]%cb_reply_table_kept.
    split; [exact Hkeys|]. intros Hcomm. apply Hsame.
    rewrite Hsent in Hcomm. apply (app_inv_head (comm w)). by rewrite app_nil_r.
  - intros f w' env' data' r' _ _ Hstands Hty' Hs' Hr'.
    by rewrite (cb_reply_reply env' data' s w' Hty' Hs'), Hstands, Hr'.
  - intros f r Hf Hr Hquiet. rewrite (cb_reply_reply env data s w Hty Hs), Hf, Hr.
    destruct Hquiet as [-> | [[servername ->] | [tag ->]]]; by eexists.
  - intros tag r Hf Hr. rewrite (cb_reply_reply env data s w Hty Hs), Hf, Hr.
    by eexists.
Qed.

Lemma C4_reply_calls_the_entry_and_keeps_it_witness :
  let data := String Py.NUL "r" +:+ String Py.NUL "-s 2" +:+ String Py.NUL "-r vim" in
  let w0 := set_callbacks {["2" := CbClient "on_option"]}
              (property_change_comm 500 (frame_text "editor_A" "c" "&filetype" 500 2)
                 (set_serial 2 (do_init demo_env 500))) in
  let w1 := call_client "on_option" "vim" w0 in
  get_option demo_env "editor_A" "filetype" "on_option" (do_init demo_env 500) = Ok w0 ∧
  cb_reply demo_env data w0 = Ok w1 ∧
  callbacks w1 = callbacks w0 ∧
  cb_reply demo_env data w1 = run_callback demo_env (CbClient "on_option") "vim" w1.
Proof.
  intros data w0 w1.
  destruct (C4_reply_calls_the_entry_and_keeps_it demo_env w0 data "2" eq_refl eq_refl)
    as (_ & Hcall & Hkeep & Hagain & _ & _).
  assert (cb_reply demo_env data w0 = Ok w1) as H1
    by (rewrite (Hcall (CbClient "on_option") "vim" eq_refl eq_refl); reflexivity).
  assert (callbacks w1 = callbacks w0) as H2
    by (apply (Hkeep w1 H1); reflexivity).
  split; [reflexivity|]. split; [exact H1|]. split; [exact H2|].
  apply (Hagain (CbClient "on_option") w1 demo_env data "vim");
    [reflexivity|exact H1|reflexivity..].
Defined.

(** C4 as stated fails: the entry for a serial outlives its reply, and a
    second reply with the same serial calls the same callable again. *)
Lemma C4_second_reply_calls_again :
  let data := String Py.NUL "r" +:+ String Py.NUL "-s 2" +:+ String Py.NUL "-r vim" in
  ∃ w0 w1 w2,
    get_option demo_env "editor_A" "filetype" "on_option" (do_init demo_env 500) = Ok w0 ∧
    callbacks w0 = {["2" := CbClient "on_option"]} ∧
    cb_reply demo_env data w0 = Ok w1 ∧
    cb_reply demo_env data w1 = Ok w2 ∧
    callbacks w1 !! "2" = Some (CbClient "on_option") ∧
    client_calls w1 = [("on_option", "vim")] ∧
    client_calls w2 = [("on_option", "vim"); ("on_option", "vim")].
Proof.
  eexists _, _, _. vm_compute. repeat split; reflexivity.
Qed.

(** C9.  A frame that is not a reply is handed to [cb_reply_async] with the
    text after ["-n "] of its last [-n] field.  When that text is [evt], a
    comma and [d], with no comma in [evt], the application receives the
    event [evt] with the comma-separated tokens of [d] as arguments; when
    it has no comma, no event is delivered and one diagnostic is logged. *)
Theorem C9_async_notification (env : Env) (w : VimWindow) (data ty field : string) :
  parse_message data !! "t" = Some ty → ty ≠ "r" →
  last (List.filter (Py.startswith "-n") (Py.split Py.NUL data)) = Some field →
  (∀ evt d, Py.drop 3 field = evt +:+ String "," d → free_of "," evt →
     ∃ w', cb_reply env data w = Ok w' ∧
           events w' = events w ++ [Event evt (PStr <$> Py.split "," d)] ∧
           logs w' = logs w) ∧
  (free_of "," (Py.drop 3 field) →
     ∃ w', cb_reply env data w = Ok w' ∧
           events w' = events w ∧
           logs w' = logs w ++ [LogEntry "bad async reply" (Py.drop 3 field) 10]).
Proof.
  intros Hty Hnr Hfield.
  rewrite (cb_reply_notification env data ty field w Hty Hnr Hfield). split.
  - intros evt d -> Hevt. rewrite cb_reply_async_comma by done. by eexists.
  - intros Hfree. rewrite cb_reply_async_no_comma by done. by eexists.
Qed.

Lemma C9_async_notification_witness :
  let data := String Py.NUL "n" +:+ String Py.NUL "-n bufferchange,3,/tmp/foo.txt" in
  let ready := String Py.NUL "n" +:+ String Py.NUL "-n ready" in
  (∃ w', cb_reply demo_env data (do_init demo_env 500) = Ok w' ∧
         events w' = [Event "bufferchange" [PStr "3"; PStr "/tmp/foo.txt"]] ∧
         logs w' = []) ∧
  (∃ w', cb_reply demo_env ready (do_init demo_env 500) = Ok w' ∧
         events w' = [] ∧
         logs w' = [LogEntry "bad async reply" "ready" 10]).
Proof.
  split.
  - refine (proj1 (C9_async_notification demo_env (do_init demo_env 500)
              (String Py.NUL "n" +:+ String Py.NUL "-n bufferchange,3,/tmp/foo.txt")
              "n" "-n bufferchange,3,/tmp/foo.txt" _ _ _)
            "bufferchange" "3,/tmp/foo.txt" _ _);
      (reflexivity || discriminate).
  - refine (proj2 (C9_async_notification demo_env (do_init demo_env 500)
              (String Py.NUL "n" +:+ String Py.NUL "-n ready")
              "n" "-n ready" _ _ _) _);
      (reflexivity || discriminate).
Defined.

(** C6 (amended).  The handler has no exception handling of its own; what
    it absorbs, it absorbs because no subscript or [pop] can fail.  A frame
    with a type tag raises nothing when it is a reply that carries a serial
    for which no call is pending (nothing happens), or when it is not a
    reply and has a [-n] field (the payload is delivered as an event or
    logged as a bad reply). *)
Theorem C6_frames_the_handler_absorbs (env : Env) (w : VimWindow) (data ty : string) :
  parse_message data !! "t" = Some ty →
  (ty = "r" ∧ ∃ s, parse_message data !! "s" = Some s ∧ callbacks w !! s = None) ∨
  (ty ≠ "r" ∧ is_Some (last (List.filter (Py.startswith "-n") (Py.split Py.NUL data)))) →
  ∃ w', cb_notify env (Some "Comm") (Some data) w = Ok (true, w') ∧
        callbacks w' = callbacks w ∧ serial w' = serial w ∧
        (ty = "r" → w' = w).
Proof.
  intros Hty [[-> (s & Hs & Hnone)] | [Hnr [field Hfield]]]; unfold cb_notify;
    rewrite decide_True by done.
  - rewrite (cb_reply_reply env data s w Hty Hs), Hnone. by exists w.
  - rewrite (cb_reply_notification env data ty field w Hty Hnr Hfield).
    destruct (cb_reply_async_ok (Py.drop 3 field) w) as (w' & -> & Hcb & Hser).
    by exists w'.
Qed.

Lemma C6_frames_the_handler_absorbs_witness :
  let data := String Py.NUL "n" +:+ String Py.NUL "-n ready" in
  ∃ w', cb_notify demo_env (Some "Comm") (Some data) (do_init demo_env 500) = Ok (true, w') ∧
        callbacks w' = ∅ ∧ serial w' = 1 ∧ ("n" = "r" → w' = do_init demo_env 500).
Proof.
  apply (C6_frames_the_handler_absorbs demo_env (do_init demo_env 500)
           (String Py.NUL "n" +:+ String Py.NUL "-n ready") "n").
  - reflexivity.
  - right. split; [discriminate|]. eexists. reflexivity.
Defined.

(** C6 as stated fails: a frame without a type tag, a reply without a
    serial, a reply without a result for a pending call, and a frame that is
    not a reply and has no [-n] field each raise out of the handler. *)
Lemma C6_malformed_frames_raise :
  let w := do_init demo_env 500 in
  let pending := set_callbacks {["2" := CbForeground]} w in
  cb_notify demo_env (Some "Comm") (Some (String Py.NUL "-n ready")) w
    = Raise (KeyError "t") ∧
  cb_notify demo_env (Some "Comm") (Some (String Py.NUL "r" +:+ String Py.NUL "-r vim")) w
    = Raise (KeyError "s") ∧
  cb_notify demo_env (Some "Comm") (Some (String Py.NUL "r" +:+ String Py.NUL "-s 2")) pending
    = Raise (KeyError "r") ∧
  cb_notify demo_env (Some "Comm") (Some (String Py.NUL "n")) w
    = Raise IndexError.
Proof. vm_compute. repeat split; reflexivity. Qed.

(** A registry entry that lacks a name, or whose id is not hexadecimal,
    makes the registry unreadable: the lookup raises before any name is
    looked up.  Such a property does not follow the registry format. *)
Lemma unreadable_registry_raises :
  let nameless := MkEnv (Some "1f4") (λ _, None) (λ _, WaitOSError) (1, 1) "" "" in
  let badid := MkEnv (Some "xyz editor_A") (λ _, None) (λ _, WaitOSError) (1, 1) "" "" in
  get_server_wid nameless "editor_A" = Raise IndexError ∧
  get_server_wid badid "editor_A" = Raise ValueError.
Proof. split; reflexivity. Qed.

(** C7 as stated fails: the target [nobody] is in none of these registries,
    yet the send raises, because only [KeyError] is caught around the
    lookup and reading the registry itself fails on an entry without a
    name, on an entry of blanks, or on an id that is not hexadecimal. *)
Lemma C7_unreadable_registry_raises :
  let world registry :=
    MkEnv (Some registry) (window_foreign_new demo_env) (os_waitpid demo_env)
      (4242, 7) "1122334455.66" "/home/user" in
  let w := do_init demo_env 500 in
  send_message (world "1f4") "nobody" ":q" false None w = Raise IndexError ∧
  send_message (world " ") "nobody" ":q" false None w = Raise IndexError ∧
  send_message (world ("1f4 editor_A" +:+ String Py.NUL "zz")) "nobody" "getcwd()" true
    (Some (CbGotCwd "nobody")) w = Raise ValueError.
Proof. repeat split; reflexivity. Qed.

(** C7 (amended).  When the root registry can be read (every entry that is
    not empty has a hexadecimal id and a name), a send to a name that the
    registry does not list, or whose listed window id is zero, does not
    resolve to a window, or resolves to a window without a "Vim" property,
    returns normally and leaves the window object as it was: nothing
    written to any "Comm" property, no callback stored, the serial
    untouched. *)
Theorem C7_send_to_unresolved_peer_is_noop (env : Env) (w : VimWindow)
    (servername message : string) (asexpr : bool) (cb : option callback)
    (servers : gmap string Z) :
  get_rootwindow_serverlist env = Ok servers →
  servers !! servername = None ∨
  (∃ wid, servers !! servername = Some wid ∧
          (wid = 0 ∨ get_server_window env wid = None ∨
           ∃ sw, get_server_window env wid = Some sw ∧ vim_property sw = None)) →
  send_message env servername message asexpr cb w = Ok w.
Proof.
  intros Hreg Hwhy. apply send_message_unreachable; [by exists servers|].
  unfold resolve_peer, get_server_wid. rewrite Hreg. cbn.
  destruct Hwhy as [-> | (wid & -> & Hwid)]; [done|].
  destruct (Z.eqb_spec wid 0) as [|Hnz]; [done|].
  destruct Hwid as [? | [-> | (sw & -> & ->)]]; done.
Qed.

Lemma C7_send_to_unresolved_peer_is_noop_witness :
  send_message demo_env "ghost" "getcwd()" true (Some (CbGotCwd "ghost"))
    (do_init demo_env 500) = Ok (do_init demo_env 500) ∧
  send_message demo_env "nobody" ":q" false None
    (do_init demo_env 500) = Ok (do_init demo_env 500).
Proof.
  split.
  - apply (C7_send_to_unresolved_peer_is_noop demo_env (do_init demo_env 500)
             "ghost" "getcwd()" true (Some (CbGotCwd "ghost"))
             (<["ghost" := 42]> (<["editor_A" := 500]> ∅))).
    + reflexivity.
    + right. exists 42. split; [reflexivity|]. right. left. reflexivity.
  - apply (C7_send_to_unresolved_peer_is_noop demo_env (do_init demo_env 500)
             "nobody" ":q" false None
             (<["ghost" := 42]> (<["editor_A" := 500]> ∅))).
    + reflexivity.
    + left. reflexivity.
Defined.

(** The pid [start] stores is the parent's side of the fork: never zero. *)
Lemma start_pid_nonzero (env : Env) (h : VimHidden) :
  pid h = None →
  pid (Hidden.start env h) = None ∨
  ∃ p, p ≠ 0 ∧ pid (Hidden.start env h) = Some p.
Proof.
  intros Hnone. unfold Hidden.start, Hidden.pid_set. rewrite Hnone.
  destruct (pty_fork env) as [p fd].
  destruct (Z.eqb_spec p 0) as [|Hp]; [by left|]. right. by exists p.
Qed.

(** C8.  [is_alive] answers [False] and changes nothing when no pid is
    stored.  With a pid stored it probes with [os.waitpid]: when the probe
    returns the stored pid (the process has exited) it answers [False] and
    clears the pid; when the probe raises [OSError] it answers [False] and
    keeps the pid; otherwise it answers [True] and keeps the pid. *)
Theorem C8_is_alive_cases (env : Env) (h : VimHidden) :
  (pid h = None → Hidden.is_alive env h = (false, h)) ∧
  (∀ p sts, pid h = Some p → p ≠ 0 → os_waitpid env p = WaitReturns p sts →
     Hidden.is_alive env h = (false, set_pid None h) ∧
     pid (Hidden.is_alive env h).2 = None) ∧
  (∀ p, pid h = Some p → p ≠ 0 → os_waitpid env p = WaitOSError →
     Hidden.is_alive env h = (false, h)) ∧
  (∀ p q sts, pid h = Some p → p ≠ 0 → os_waitpid env p = WaitReturns q sts → q ≠ p →
     Hidden.is_alive env h = (true, h)).
Proof.
  unfold Hidden.is_alive, Hidden.pid_set. split; [|split; [|split]].
  - by intros ->.
  - intros p sts -> Hp Hprobe.
    destruct (Z.eqb_spec p 0) as [|_]; [done|]. by rewrite Hprobe, Z.eqb_refl.
  - intros p -> Hp Hprobe.
    destruct (Z.eqb_spec p 0) as [|_]; [done|]. by rewrite Hprobe.
  - intros p q sts -> Hp Hprobe Hq.
    destruct (Z.eqb_spec p 0) as [|_]; [done|]. rewrite Hprobe.
    by destruct (Z.eqb_spec q p).
Qed.

Lemma C8_is_alive_cases_witness :
  let exited := MkEnv None (λ _, None) (λ p, WaitReturns p 0) (4242, 7) "0.0" "/" in
  let h := Hidden.start exited (Hidden.do_init exited) in
  pid h = Some 4242 ∧
  Hidden.is_alive exited (Hidden.do_init exited) = (false, Hidden.do_init exited) ∧
  Hidden.is_alive exited h = (false, set_pid None h) ∧
  Hidden.is_alive bare_env h = (false, h) ∧
  Hidden.is_alive demo_env h = (true, h).
Proof.
  intros exited h. split; [reflexivity|].
  destruct (C8_is_alive_cases exited (Hidden.do_init exited)) as (Hunset & _).
  destruct (C8_is_alive_cases exited h) as (_ & Hexit & _).
  destruct (C8_is_alive_cases bare_env h) as (_ & _ & Herr & _).
  destruct (C8_is_alive_cases demo_env h) as (_ & _ & _ & Hrun).
  split; [apply Hunset; reflexivity|].
  split; [apply (Hexit 4242 0); [reflexivity|discriminate|reflexivity]|].
  split; [apply (Herr 4242); [reflexivity|discriminate|reflexivity]|].
  apply (Hrun 4242 0 0); [reflexivity|discriminate|reflexivity|discriminate].
Defined.

(** ** More about the codec *)

Section CodecFields.

Lemma split_nonempty c s : ∃ f fs, Py.split c s = f :: fs.
Proof.
  induction s as [|x s (f & fs & IH)]; cbn; [by eexists _, _|].
  destruct (Ascii.eqb x c); [by eexists _, _|]. rewrite IH. by eexists _, _.
Qed.

(** Splitting distributes over a separator that is in the text. *)
Lemma split_app c a b :
  Py.split c (a +:+ String c b) = Py.split c a ++ Py.split c b.
Proof.
  induction a as [|x a IH].
  - rewrite append_nil. cbn. by rewrite Ascii.eqb_refl.
  - rewrite append_cons. cbn. destruct (Ascii.eqb x c); [by rewrite IH|].
    rewrite IH. by destruct (split_nonempty c a) as (f & fs & ->).
Qed.

(** The fields after a NUL are parsed on top of what precedes it. *)
Lemma parse_message_app a b :
  parse_message (a +:+ String Py.NUL b) =
  foldl parse_field (parse_message a) (Py.split " " <$> Py.split Py.NUL b).
Proof. unfold parse_message. by rewrite split_app, fmap_app, foldl_app. Qed.

Lemma parse_message_app_field a field :
  free_of Py.NUL field →
  parse_message (a +:+ String Py.NUL field) =
  parse_field (parse_message a) (Py.split " " field).
Proof. intros Hf. by rewrite parse_message_app, split_free. Qed.

End CodecFields.

(** X1.  [parse_message] skips empty fields: a doubled NUL anywhere in a
    message decodes like a single one. *)
Theorem X1_parse_message_skips_empty_fields (a b : string) :
  parse_message (a +:+ String Py.NUL (String Py.NUL b)) =
  parse_message (a +:+ String Py.NUL b).
Proof.
  rewrite !parse_message_app. cbn [Py.split]. by rewrite Ascii.eqb_refl.
Qed.

(** X2.  An attribute field [-k v ...] at the end of a message stores the
    first token after the name under [k], on top of whatever the message
    held before (an earlier value for [k] is overwritten); the tokens after
    [v] are dropped. *)
Theorem X2_parse_message_last_attribute_wins (a k v : string) (more : list string) :
  Forall (λ tok, free_of Py.NUL tok ∧ free_of " " tok) (k :: v :: more) →
  parse_message (a +:+ String Py.NUL (Py.join " " (("-" +:+ k) :: v :: more))) =
  <[k := v]> (parse_message a).
Proof.
  intros Hall.
  assert (Forall (free_of " ") (("-" +:+ k) :: v :: more)) as Hsp.
  { inversion Hall as [|? ? [_ Hk] Hrest]; subst. constructor; [by apply free_of_cons|].
    eapply Forall_impl; [exact Hrest|]. by intros ? [_ ?]. }
  assert (free_of Py.NUL (Py.join " " (("-" +:+ k) :: v :: more))) as Hnul.
  { assert (Forall (free_of Py.NUL) (("-" +:+ k) :: v :: more)) as Hn.
    { inversion Hall as [|? ? [Hk _] Hrest]; subst. constructor; [by apply free_of_cons|].
      eapply Forall_impl; [exact Hrest|]. by intros ? [? _]. }
    clear -Hn. induction Hn as [|tok toks Htok Htoks IH]; [done|].
    destruct toks as [|tok' toks]; [done|].
    change (Py.join " " (tok :: tok' :: toks))
      with (tok +:+ String " " (Py.join " " (tok' :: toks))).
    apply free_of_append; [done|]. by apply free_of_cons. }
  rewrite parse_message_app_field by done. by rewrite split_join.
Qed.

Lemma X2_parse_message_last_attribute_wins_witness :
  parse_message (String Py.NUL "r" +:+ String Py.NUL "-s 7" +:+
                 String Py.NUL (Py.join " " ["-" +:+ "s"; "8"; "9"])) =
  <["s" := "8"]> (parse_message (String Py.NUL "r" +:+ String Py.NUL "-s 7")).
Proof.
  apply (X2_parse_message_last_attribute_wins
           (String Py.NUL "r" +:+ String Py.NUL "-s 7") "s" "8" ["9"]).
  repeat constructor.
Defined.

(** X3.  An attribute field without a value ([-k] alone) stores nothing. *)
Theorem X3_parse_message_attribute_without_value (a k : string) :
  free_of Py.NUL k → free_of " " k →
  parse_message (a +:+ String Py.NUL ("-" +:+ k)) = parse_message a.
Proof.
  intros Hn Hs.
  rewrite parse_message_app_field by (by apply free_of_cons).
  by rewrite split_free by (by apply free_of_cons).
Qed.

Lemma X3_parse_message_attribute_without_value_witness :
  parse_message (String Py.NUL "r" +:+ String Py.NUL ("-" +:+ "s")) =
  parse_message (String Py.NUL "r").
Proof.
  apply (X3_parse_message_attribute_without_value (String Py.NUL "r") "s"); reflexivity.
Defined.

(** ** Serials and the callback table *)

Section Serials.

Lemma to_int_not_nil (n : Z) :
  Z.to_int n ≠ Decimal.Pos Decimal.Nil ∧ Z.to_int n ≠ Decimal.Neg Decimal.Nil.
Proof.
  destruct n as [|p|p]; cbn; split; try discriminate;
    intros [= H]; by apply DecimalPos.Unsigned.to_uint_nonnil in H.
Qed.

(** Different integers have different decimal texts. *)
Lemma fmt_d_inj (n m : Z) : Py.fmt_d n = Py.fmt_d m → n = m.
Proof.
  unfold Py.fmt_d. intros H. apply DecimalZ.to_int_inj.
  destruct (to_int_not_nil n) as [Hn1 Hn2]. destruct (to_int_not_nil m) as [Hm1 Hm2].
  pose proof (DecimalString.NilZero.isi _ Hn1 Hn2) as En.
  pose proof (DecimalString.NilZero.isi _ Hm1 Hm2) as Em.
  rewrite H in En. congruence.
Qed.

Lemma next_serial_in_range (n : Z) : 1 ≤ n ≤ 65530 → 1 ≤ next_serial n ≤ 65530.
Proof. unfold next_serial. destruct (Z.gtb_spec (n + 1) 65530); lia. Qed.

Lemma next_serial_changes (n : Z) : 1 ≤ n ≤ 65530 → next_serial n ≠ n.
Proof. unfold next_serial. destruct (Z.gtb_spec (n + 1) 65530); lia. Qed.

(** What a send can do to the serial and to the callback table. *)
Lemma send_message_effect env server message asexpr cb w w' :
  send_message env server message asexpr cb w = Ok w' →
  w' = w ∨
  (serial w' = next_serial (serial w) ∧
   (callbacks w' = callbacks w ∨
    ∃ f, callbacks w' = <[Py.fmt_d (serial w') := f]> (callbacks w))).
Proof.
  unfold send_message.
  destruct (get_server_wid env server) as [[wid|]|e]; cbn; try discriminate;
    try (intros [= <-]; by left).
  destruct (get_server_window env wid) as [sw|]; try (intros [= <-]; by left).
  destruct (vim_property sw); try (intros [= <-]; by left).
  unfold generate_message.
  destruct asexpr, cb as [f|]; cbn; intros [= <-]; right; (split; [done|]);
    cbn; eauto.
Qed.

Lemma well_formed_same w w' :
  serial w' = serial w → callbacks w' = callbacks w → well_formed w → well_formed w'.
Proof.
  unfold well_formed, serial_in_range, keys_are_serials. intros -> ->. done.
Qed.

Lemma send_message_well_formed env server message asexpr cb w w' :
  send_message env server message asexpr cb w = Ok w' → well_formed w → well_formed w'.
Proof.
  intros Hsend [Hser Hkeys].
  apply send_message_effect in Hsend as [-> | [Hs Hc]]; [done|].
  assert (1 ≤ serial w' ≤ 65530) as Hser' by (rewrite Hs; by apply next_serial_in_range).
  split; [done|]. intros k Hk. destruct Hc as [Hc | [f Hc]]; rewrite Hc in Hk.
  - by apply Hkeys.
  - apply lookup_insert_is_Some in Hk as [<- | [_ Hk]]; [by eexists|by apply Hkeys].
Qed.

Lemma fetch_missing_cwds_well_formed env serverlist w w' :
  fetch_missing_cwds env serverlist w = Ok w' → well_formed w → well_formed w'.
Proof.
  unfold fetch_missing_cwds. revert w.
  induction serverlist as [|server l IH]; intros w; cbn [for_each].
  - by intros [= <-].
  - destruct (server_cwds w !! server); [cbn; apply IH|].
    destruct (fetch_cwd env server w) as [w1|e] eqn:Hfetch; cbn; [|discriminate].
    intros Hrest Hwf. eapply IH; [done|]. by eapply send_message_well_formed.
Qed.

Lemma abspath_well_formed env server filename w p w' :
  abspath env server filename w = Ok (p, w') → well_formed w → well_formed w'.
Proof.
  unfold abspath. destruct (Py.startswith "/" filename); [by intros [= _ <-]|].
  destruct (server_cwds w !! server); [by intros [= _ <-]|].
  destruct (fetch_cwd env server w) as [w1|e] eqn:Hfetch; cbn; [|discriminate].
  intros [= _ <-]. by eapply send_message_well_formed.
Qed.

Lemma bufferlist_rows_well_formed env server rows acc acc' :
  for_each (bufferlist_row env server) rows acc = Ok acc' →
  well_formed acc.2 → well_formed acc'.2.
Proof.
  revert acc. induction rows as [|n rows IH]; intros acc; cbn [for_each].
  - by intros [= <-].
  - destruct (bufferlist_row env server acc n) as [acc1|e] eqn:Hrow; cbn; [|discriminate].
    intros Hrest Hwf. eapply IH; [done|].
    unfold bufferlist_row in Hrow. destruct n as [|n0 [|n1 rest]]; try discriminate.
    + destruct (Py.startswith "E" n0); [by injection Hrow as <-|discriminate].
    + destruct (Py.startswith "E" n0); [by injection Hrow as <-|].
      destruct (abspath env server n1 acc.2) as [[p w1]|e] eqn:Habs; cbn in Hrow;
        [|discriminate].
      injection Hrow as <-. cbn. by eapply abspath_well_formed.
Qed.

Lemma run_callback_well_formed env f arg w w' :
  run_callback env f arg w = Ok w' → well_formed w → well_formed w'.
Proof.
  destruct f as [|servername| |server|server|tag]; cbn [run_callback].
  - rewrite gotservers_unfold.
    destruct (fetch_missing_cwds env (visible_servers arg) w) as [w1|e] eqn:Hloop; cbn;
      [|discriminate].
    intros [= <-] Hwf. apply (fetch_missing_cwds_well_formed _ _ _ _ Hloop) in Hwf.
    destruct (oldservers w1) as [old|]; [destruct (decide _)|]; try done;
      by eapply well_formed_same.
  - intros [= <-]. by apply well_formed_same.
  - by intros [= <-].
  - destruct (Py.truthy arg); [|by intros [= <-]].
    destruct (for_each _ _ _) as [[L w1]|e] eqn:Hrows; cbn; [|discriminate].
    intros [= <-] Hwf. apply bufferlist_rows_well_formed in Hrows; [|done].
    by eapply well_formed_same.
  - destruct (Py.split "," arg !! 1%nat) as [b1|]; [|discriminate].
    destruct (abspath env server b1 w) as [[p w1]|e] eqn:Habs; cbn; [|discriminate].
    intros [= <-] Hwf. apply abspath_well_formed in Habs; [|done].
    by eapply well_formed_same.
  - intros [= <-]. by apply well_formed_same.
Qed.

Lemma cb_reply_well_formed env data w w' :
  cb_reply env data w = Ok w' → well_formed w → well_formed w'.
Proof.
  unfold cb_reply. destruct (parse_message data !! "t") as [ty|]; [|discriminate].
  destruct (decide (ty = "r")).
  - destruct (parse_message data !! "s") as [s|]; [|discriminate].
    destruct (callbacks w !! s) as [f|]; [|by intros [= <-]].
    destruct (parse_message data !! "r") as [r|]; [|discriminate].
    apply run_callback_well_formed.
  - destruct (last _) as [field|]; [|discriminate].
    destruct (cb_reply_async_ok (Py.drop 3 field) w) as (w1 & -> & Hcb & Hser).
    intros [= <-]. by apply well_formed_same.
Qed.

Lemma get_hidden_serverlist_well_formed env w w' :
  get_hidden_serverlist env w = Ok w' → well_formed w → well_formed w'.
Proof.
  unfold get_hidden_serverlist.
  destruct (Hidden.is_alive env (vim_hidden w)) as [[|] h].
  - intros Hsend Hwf. unfold send_expr in Hsend.
    eapply send_message_well_formed; [exact Hsend|]. by eapply well_formed_same.
  - intros [= <-]. by apply well_formed_same.
Qed.

End Serials.

(** X4.  An expression call with a callback to a peer that resolves puts
    one frame on the transport, and a reply that carries the serial of that
    frame and a result calls that callback with the result. *)
Theorem X4_reply_reaches_the_callback (env env' : Env) (w : VimWindow)
    (server message data r : string) (f : callback) (wid : Z) :
  resolve_peer env server = Some wid →
  parse_message data !! "t" = Some "r" →
  parse_message data !! "s" = Some (Py.fmt_d (next_serial (serial w))) →
  parse_message data !! "r" = Some r →
  ∃ w1, send_expr env server message (Some f) w = Ok w1 ∧
        comm w1 = comm w ++
          [(wid, frame_text server "c" message (xid w) (next_serial (serial w)))] ∧
        cb_reply env' data w1 = run_callback env' f r w1.
Proof.
  intros Hpeer Hty Hs Hr. unfold send_expr.
  rewrite (send_message_reachable _ _ _ _ _ _ wid Hpeer).
  eexists. split; [reflexivity|]. split; [reflexivity|].
  rewrite (cb_reply_reply env' data _ _ Hty Hs), Hr. cbn.
  by rewrite lookup_insert_eq.
Qed.

Lemma X4_reply_reaches_the_callback_witness :
  let data := String Py.NUL "r" +:+ String Py.NUL "-s 2" +:+ String Py.NUL "-r /srv" in
  ∃ w1, send_expr demo_env "editor_A" "getcwd()" (Some (CbGotCwd "editor_A"))
          (do_init demo_env 500) = Ok w1 ∧
        comm w1 = [(500, frame_text "editor_A" "c" "getcwd()" 500 2)] ∧
        cb_reply bare_env data w1 = run_callback bare_env (CbGotCwd "editor_A") "/srv" w1.
Proof.
  apply (X4_reply_reaches_the_callback demo_env bare_env (do_init demo_env 500)
           "editor_A" "getcwd()"
           (String Py.NUL "r" +:+ String Py.NUL "-s 2" +:+ String Py.NUL "-r /srv")
           "/srv" (CbGotCwd "editor_A") 500); reflexivity.
Defined.

(** X5.  Two expression calls in a row never share a table entry: after
    both, the first callback is pending under the serial of the first frame
    and the second under the serial of the second. *)
Theorem X5_consecutive_calls_do_not_collide (env1 env2 : Env) (w : VimWindow)
    (server1 message1 server2 message2 : string) (f g : callback) :
  serial_in_range w →
  is_Some (resolve_peer env1 server1) → is_Some (resolve_peer env2 server2) →
  ∃ w1 w2, send_expr env1 server1 message1 (Some f) w = Ok w1 ∧
           send_expr env2 server2 message2 (Some g) w1 = Ok w2 ∧
           serial w2 ≠ serial w1 ∧
           callbacks w2 !! Py.fmt_d (serial w1) = Some f ∧
           callbacks w2 !! Py.fmt_d (serial w2) = Some g.
Proof.
  intros Hser [wid1 H1] [wid2 H2]. unfold send_expr.
  rewrite (send_message_reachable _ _ _ _ _ _ wid1 H1).
  eexists. eexists. split; [reflexivity|].
  rewrite (send_message_reachable _ _ _ _ _ _ wid2 H2).
  split; [reflexivity|]. cbn.
  pose proof (next_serial_in_range _ Hser) as Hser1.
  pose proof (next_serial_changes _ Hser1) as Hne.
  split; [done|]. split.
  - rewrite lookup_insert_ne; [by rewrite lookup_insert_eq|].
    intros Heq%fmt_d_inj. done.
  - by rewrite lookup_insert_eq.
Qed.

Lemma X5_consecutive_calls_do_not_collide_witness :
  ∃ w1 w2, send_expr demo_env "editor_A" "a" (Some CbForeground) (do_init demo_env 500) = Ok w1 ∧
           send_expr demo_env "editor_A" "b" (Some (CbClient "g")) w1 = Ok w2 ∧
           serial w2 ≠ serial w1 ∧
           callbacks w2 !! Py.fmt_d (serial w1) = Some CbForeground ∧
           callbacks w2 !! Py.fmt_d (serial w2) = Some (CbClient "g").
Proof.
  apply (X5_consecutive_calls_do_not_collide demo_env demo_env (do_init demo_env 500)
           "editor_A" "a" "editor_A" "b" CbForeground (CbClient "g")).
  - unfold serial_in_range. cbn. lia.
  - eexists. reflexivity.
  - eexists. reflexivity.
Defined.

(** X6.  The serial stays within 1..65530 and every key of the callback
    table is the decimal text of a serial in that range: this holds after
    [do_init] and is kept by every send, by the handling of every inbound
    message (callbacks included) and by every discovery tick. *)
Theorem X6_well_formed_is_invariant (env : Env) :
  (∀ own_xid, well_formed (do_init env own_xid)) ∧
  (∀ w w' server message asexpr cb,
     well_formed w → send_message env server message asexpr cb w = Ok w' →
     well_formed w') ∧
  (∀ w w' atom message b,
     well_formed w → cb_notify env atom message w = Ok (b, w') → well_formed w') ∧
  (∀ w w' b,
     well_formed w → fetch_serverlist env w = Ok (b, w') → well_formed w').
Proof.
  split; [|split; [|split]].
  - intros own_xid. split; [unfold serial_in_range; cbn; lia|].
    intros k [f Hk]. cbn in Hk. by rewrite lookup_empty in Hk.
  - intros w w' server message asexpr cb Hwf Hsend.
    by eapply send_message_well_formed.
  - intros w w' atom message b Hwf. unfold cb_notify.
    destruct atom as [a|]; [|by intros [= _ <-]].
    destruct (decide (a = "Comm")); [|by intros [= _ <-]].
    destruct message as [data|]; [|by intros [= _ <-]].
    destruct (cb_reply env data w) as [w1|err] eqn:Hreply; cbn; [|discriminate].
    intros [= _ <-]. by eapply cb_reply_well_formed.
  - intros w w' b Hwf. unfold fetch_serverlist.
    destruct (get_hidden_serverlist env w) as [w1|e] eqn:Hget; cbn; [|discriminate].
    intros [= _ <-]. by eapply get_hidden_serverlist_well_formed.
Qed.

Lemma X6_well_formed_is_invariant_witness :
  let reply := String Py.NUL "r" +:+ String Py.NUL "-s 2" +:+ String Py.NUL "-r /srv" in
  let w0 := do_init demo_env 500 in
  let w1 := set_callbacks {["2" := CbGotCwd "editor_A"]}
              (property_change_comm 500 (frame_text "editor_A" "c" "getcwd()" 500 2)
                 (set_serial 2 w0)) in
  let w2 := set_server_cwds {["editor_A" := "/srv"]} w1 in
  send_message demo_env "editor_A" "getcwd()" true (Some (CbGotCwd "editor_A")) w0 = Ok w1 ∧
  cb_notify demo_env (Some "Comm") (Some reply) w1 = Ok (true, w2) ∧
  well_formed w2.
Proof.
  intros reply w0 w1 w2.
  destruct (X6_well_formed_is_invariant demo_env) as (Hinit & Hsend & Hnotify & _).
  assert (send_message demo_env "editor_A" "getcwd()" true
            (Some (CbGotCwd "editor_A")) w0 = Ok w1) as H1 by reflexivity.
  assert (cb_notify demo_env (Some "Comm") (Some reply) w1 = Ok (true, w2)) as H2
    by reflexivity.
  split; [exact H1|]. split; [exact H2|].
  exact (Hnotify w1 w2 (Some "Comm") (Some reply) true
           (Hsend w0 w1 "editor_A" "getcwd()" true (Some (CbGotCwd "editor_A"))
              (Hinit 500) H1) H2).
Defined.

(** A table whose keys are serials has at most as many entries as there
    are serials. *)
Lemma serial_keys_bounded (w : VimWindow) :
  keys_are_serials w → Z.of_nat (size (callbacks w)) ≤ 65530.
Proof.
  intros Hkeys.
  assert (NoDup (Py.fmt_d <$> seqZ 1 65530)) as Hnd.
  { apply NoDup_fmap_2_strong; [|apply NoDup_seqZ]. intros ? ? _ _. apply fmt_d_inj. }
  assert (dom (callbacks w) ⊆ list_to_set (C := gset string) (Py.fmt_d <$> seqZ 1 65530))
    as Hsub.
  { intros k Hk%elem_of_dom. destruct (Hkeys k Hk) as (n & Hn & ->).
    apply elem_of_list_to_set, list_elem_of_fmap. exists n. split; [done|].
    apply elem_of_seqZ. lia. }
  apply subseteq_size in Hsub.
  rewrite size_dom, size_list_to_set, length_fmap, length_seqZ in Hsub by exact Hnd.
  lia.
Qed.

Lemma cb_notify_well_formed env atom message w b w' :
  cb_notify env atom message w = Ok (b, w') → well_formed w → well_formed w'.
Proof.
  unfold cb_notify. destruct atom as [a|]; [|by intros [= _ <-]].
  destruct (decide (a = "Comm")); [|by intros [= _ <-]].
  destruct message as [data|]; [|by intros [= _ <-]].
  destruct (cb_reply env data w) as [w1|err] eqn:Hreply; cbn; [|discriminate].
  intros [= _ <-]. by eapply cb_reply_well_formed.
Qed.

Lemma fetch_serverlist_well_formed env w b w' :
  fetch_serverlist env w = Ok (b, w') → well_formed w → well_formed w'.
Proof.
  unfold fetch_serverlist.
  destruct (get_hidden_serverlist env w) as [w1|err] eqn:Hget; cbn; [|discriminate].
  intros [= _ <-]. by eapply get_hidden_serverlist_well_formed.
Qed.

Lemma reachable_well_formed (w : VimWindow) : reachable w → well_formed w.
Proof.
  induction 1 as [env own_xid|env server message asexpr cb w w' _ IH Hsend
                  |env atom message b w w' _ IH Hnotify|env b w w' _ IH Htick].
  - split; [unfold serial_in_range; cbn; lia|].
    intros k [f Hk]. cbn in Hk. by rewrite lookup_empty in Hk.
  - by eapply send_message_well_formed.
  - by eapply cb_notify_well_formed.
  - by eapply fetch_serverlist_well_formed.
Qed.

(** X7.  However a window got to where it is, from [do_init] through
    sends, inbound messages and discovery ticks in any world, its callback
    table holds at most 65530 entries: callbacks are stored under the
    serial that [generate_message] keeps within 1..65530 and nowhere else,
    so the calls that never get a reply cannot pile up beyond the serial
    range. *)
Theorem X7_callback_table_is_bounded (w : VimWindow) :
  reachable w → Z.of_nat (size (callbacks w)) ≤ 65530.
Proof.
  intros Hreach. apply serial_keys_bounded.
  by apply reachable_well_formed in Hreach as [_ Hkeys].
Qed.

Lemma X7_callback_table_is_bounded_witness :
  let w0 := do_init demo_env 500 in
  let w1 := set_callbacks {["2" := CbGotCwd "editor_A"]}
              (property_change_comm 500 (frame_text "editor_A" "c" "getcwd()" 500 2)
                 (set_serial 2 w0)) in
  let w2 := set_callbacks (<["3" := CbForeground]> (callbacks w1))
              (property_change_comm 500 (frame_text "editor_A" "c" "foreground()" 500 3)
                 (set_serial 3 w1)) in
  send_message demo_env "editor_A" "getcwd()" true (Some (CbGotCwd "editor_A")) w0 = Ok w1 ∧
  send_message demo_env "editor_A" "foreground()" true (Some CbForeground) w1 = Ok w2 ∧
  size (callbacks w2) = 2%nat ∧
  Z.of_nat (size (callbacks w2)) ≤ 65530.
Proof.
  intros w0 w1 w2.
  assert (send_message demo_env "editor_A" "getcwd()" true
            (Some (CbGotCwd "editor_A")) w0 = Ok w1) as H1 by reflexivity.
  assert (send_message demo_env "editor_A" "foreground()" true
            (Some CbForeground) w1 = Ok w2) as H2 by reflexivity.
  split; [exact H1|]. split; [exact H2|]. split; [reflexivity|].
  apply (X7_callback_table_is_bounded w2).
  exact (reach_send _ _ _ _ _ _ _ (reach_send _ _ _ _ _ _ _ (reach_init demo_env 500) H1) H2).
Defined.

(** ** Key commands *)

Section KeyCommands.

Lemma send_keys_callbacks env server message cb w w' :
  send_message env server message false cb w = Ok w' → callbacks w' = callbacks w.
Proof.
  unfold send_message.
  destruct (get_server_wid env server) as [[wid|]|e]; cbn; try discriminate;
    try (by intros [= <-]).
  destruct (get_server_window env wid) as [sw|]; try (by intros [= <-]).
  destruct (vim_property sw); by intros [= <-].
Qed.

Lemma replace_app old new a b :
  Py.replace old new (a +:+ b) = Py.replace old new a +:+ Py.replace old new b.
Proof.
  induction a as [|x a IH]; [done|]. rewrite append_cons. cbn.
  destruct (Ascii.eqb x old); rewrite IH; [by rewrite append_assoc|done].
Qed.

Lemma escape_loop_app (chars : list ascii) (a b : string) :
  foldl (λ nm s, Py.replace s (String "\" (String s EmptyString)) nm) (a +:+ b) chars =
  foldl (λ nm s, Py.replace s (String "\" (String s EmptyString)) nm) a chars +:+
  foldl (λ nm s, Py.replace s (String "\" (String s EmptyString)) nm) b chars.
Proof.
  revert a b. induction chars as [|c chars IH]; intros a b; [done|].
  cbn [foldl]. by rewrite replace_app, IH.
Qed.

Lemma escape_filename_char (c : ascii) :
  escape_filename (String c "") = escape_each (String c "").
Proof. destruct c as [[] [] [] [] [] [] [] []]; reflexivity. Qed.

End KeyCommands.

(** X8.  [send_ex] to a peer that resolves appends three key frames to the
    peer's "Comm" property, in this order: the escape to normal mode, the
    command behind a colon, the return key.  They carry three successive
    serials, and no callback is stored. *)
Theorem X8_send_ex_sends_three_key_frames (env : Env) (w : VimWindow)
    (server command : string) (wid : Z) :
  resolve_peer env server = Some wid →
  let n1 := next_serial (serial w) in
  let n2 := next_serial n1 in
  let n3 := next_serial n2 in
  ∃ w', send_ex env server command w = Ok w' ∧
        comm w' = comm w ++
          [(wid, frame_text server "k" "<C-\><C-N>" (xid w) n1);
           (wid, frame_text server "k" (":" +:+ command) (xid w) n2);
           (wid, frame_text server "k" "<RETURN>" (xid w) n3)] ∧
        serial w' = n3 ∧ callbacks w' = callbacks w.
Proof.
  intros Hpeer n1 n2 n3. unfold send_ex, send_esc, send_ret, send_keys.
  rewrite (send_message_reachable _ _ _ _ _ _ wid Hpeer). cbn [mbind result_bind].
  rewrite (send_message_reachable _ _ _ _ _ _ wid Hpeer). cbn [mbind result_bind].
  rewrite (send_message_reachable _ _ _ _ _ _ wid Hpeer).
  eexists. split; [reflexivity|]. cbn. by rewrite <- !app_assoc.
Qed.

Lemma X8_send_ex_sends_three_key_frames_witness :
  ∃ w', quit demo_env "editor_A" (do_init demo_env 500) = Ok w' ∧
        comm w' = [(500, frame_text "editor_A" "k" "<C-\><C-N>" 500 2);
                   (500, frame_text "editor_A" "k" ":q" 500 3);
                   (500, frame_text "editor_A" "k" "<RETURN>" 500 4)] ∧
        serial w' = 4 ∧ callbacks w' = ∅.
Proof.
  apply (X8_send_ex_sends_three_key_frames demo_env (do_init demo_env 500)
           "editor_A" "q" 500).
  reflexivity.
Defined.

(** X9.  Whatever the world looks like, a [send_ex] that returns has stored
    no callback and has touched neither the discovery state nor anything
    the application sees. *)
Theorem X9_send_ex_stores_no_callback (env : Env) (w w' : VimWindow)
    (server command : string) :
  send_ex env server command w = Ok w' →
  callbacks w' = callbacks w ∧ quiet_step w w'.
Proof.
  unfold send_ex, send_esc, send_ret, send_keys.
  destruct (send_message env server "<C-\><C-N>" false None w) as [w1|e] eqn:H1; cbn;
    [|discriminate].
  destruct (send_message env server (":" +:+ command) false None w1) as [w2|e] eqn:H2; cbn;
    [|discriminate].
  intros H3. split.
  - apply send_keys_callbacks in H1, H2, H3. congruence.
  - apply send_message_quiet in H1, H2, H3.
    eapply quiet_step_trans; [exact H1|]. by eapply quiet_step_trans.
Qed.

Lemma X9_send_ex_stores_no_callback_witness :
  let w := set_callbacks {["2" := CbForeground]} (do_init demo_env 500) in
  ∃ w', send_ex demo_env "editor_A" "bd" w = Ok w' ∧
        callbacks w' = callbacks w ∧ quiet_step w w'.
Proof.
  intros w.
  assert (∃ w', send_ex demo_env "editor_A" "bd" w = Ok w') as [w' Hw']
    by (eexists; reflexivity).
  exists w'. split; [exact Hw'|].
  exact (X9_send_ex_stores_no_callback demo_env w w' "editor_A" "bd" Hw').
Defined.

(** X10.  The nine replacements of [escape_filename], made one after the
    other, amount to one pass that puts a backslash in front of every
    backslash, question mark, star, space, quote, double quote, opening
    bracket, tab and dollar: no character is escaped twice, and a name
    without these characters is returned as it is. *)
Theorem X10_escape_filename_is_one_pass (name : string) :
  escape_filename name = escape_each name.
Proof.
  induction name as [|c rest IH]; [reflexivity|].
  change (String c rest) with (String c "" +:+ rest) at 1.
  unfold escape_filename at 1. rewrite escape_loop_app.
  fold (escape_filename (String c "")). fold (escape_filename rest).
  rewrite escape_filename_char, IH. cbn [escape_each].
  by destruct (bool_decide (c ∈ escaped_chars)).
Qed.

(** ** The discovery tick and the working-directory cache *)

Section Ticks.

Lemma split_free_fields c s : Forall (free_of c) (Py.split c s).
Proof.
  induction s as [|x s IH]; cbn; [by repeat constructor|].
  destruct (Ascii.eqb_spec x c) as [->|Hx]; [by constructor|].
  destruct (Py.split c s) as [|f fs].
  - constructor; [by apply free_of_cons|constructor].
  - inversion IH; subst. constructor; [by apply free_of_cons|done].
Qed.

Lemma join_split c s : Py.join c (Py.split c s) = s.
Proof.
  induction s as [|x s IH]; [done|]. cbn.
  destruct (Ascii.eqb_spec x c) as [->|Hx].
  - destruct (split_nonempty c s) as (f & fs & Hs). rewrite Hs in *.
    change (Py.join c ("" :: f :: fs)) with ("" +:+ String c (Py.join c (f :: fs))).
    by rewrite IH.
  - destruct (split_nonempty c s) as (f & fs & Hs). rewrite Hs in *.
    destruct fs as [|g fs]; cbn in *; [by rewrite IH|].
    rewrite <- IH. by rewrite append_cons.
Qed.

Lemma split_length c s : length (Py.split c s) = S (Py.count c s).
Proof.
  induction s as [|x s IH]; [done|]. cbn.
  destruct (Ascii.eqb x c); cbn; [by rewrite IH|].
  destruct (split_nonempty c s) as (f & fs & Hs). rewrite Hs in *. done.
Qed.

Lemma visible_servers_spec reply svr :
  svr ∈ visible_servers reply →
  svr ∈ Py.splitlines reply ∧ Py.startswith "__" svr = false.
Proof.
  unfold visible_servers. rewrite !list_elem_of_In, filter_In.
  intros [Hin Hvis]. split; [done|]. by destruct (Py.startswith "__" svr).
Qed.

End Ticks.

(** X11.  The name of the hidden Vim starts with two underscores, and no
    name that does is ever in the list a discovery cycle works with: the
    hidden instance is never shown to the application. *)
Theorem X11_hidden_vim_is_never_listed (env : Env) (own_xid : Z) (reply : string) :
  (name (vim_hidden (do_init env own_xid)) ∉ visible_servers reply) ∧
  (∀ svr, svr ∈ visible_servers reply → Py.startswith "__" svr = false).
Proof.
  split; [|intros svr Hsvr; by apply visible_servers_spec in Hsvr as [_ ?]].
  intros [_ Hvis]%visible_servers_spec.
  assert (∀ h, name (Hidden.start env h) = name h) as Hname.
  { intros h. unfold Hidden.start. destruct (Hidden.pid_set h); [done|].
    destruct (pty_fork env) as [p fd]. by destruct (p =? 0). }
  change (name (vim_hidden (do_init env own_xid)))
    with (name (Hidden.start env (Hidden.do_init env))) in Hvis.
  rewrite Hname in Hvis. discriminate.
Qed.

(** X12.  A discovery tick that finds the hidden Vim exited sends nothing
    and starts a new one at once, under the same name; a tick whose probe
    fails with [OSError] sends nothing and forks nothing. *)
Theorem X12_tick_with_a_dead_hidden_vim (env : Env) (w : VimWindow) (p : Z) :
  pid (vim_hidden w) = Some p → p ≠ 0 →
  (∀ sts q fd, os_waitpid env p = WaitReturns p sts → pty_fork env = (q, fd) → q ≠ 0 →
     ∃ w', fetch_serverlist env w = Ok (true, w') ∧
           comm w' = comm w ∧ serial w' = serial w ∧ callbacks w' = callbacks w ∧
           pid (vim_hidden w') = Some q ∧
           name (vim_hidden w') = name (vim_hidden w)) ∧
  (os_waitpid env p = WaitOSError →
     fetch_serverlist env w = Ok (true, set_vim_hidden (vim_hidden w) w)).
Proof.
  intros Hpid Hp.
  unfold fetch_serverlist, get_hidden_serverlist, Hidden.is_alive, Hidden.pid_set.
  rewrite Hpid. destruct (Z.eqb_spec p 0) as [|_]; [done|]. split.
  - intros sts q fd -> Hfork Hq. rewrite Z.eqb_refl. cbn.
    unfold Hidden.start, Hidden.pid_set. cbn. rewrite Hfork.
    destruct (Z.eqb_spec q 0) as [|_]; [done|]. by eexists.
  - intros ->. cbn. unfold Hidden.start, Hidden.pid_set. rewrite Hpid.
    by destruct (Z.eqb_spec p 0).
Qed.

Lemma X12_tick_with_a_dead_hidden_vim_witness :
  let exited := MkEnv None (λ _, None) (λ p, WaitReturns p 0) (5151, 9) "0.0" "/" in
  let w := do_init demo_env 500 in
  pid (vim_hidden w) = Some 4242 ∧
  ∃ w', fetch_serverlist exited w = Ok (true, w') ∧
        comm w' = [] ∧ serial w' = 1 ∧ callbacks w' = ∅ ∧
        pid (vim_hidden w') = Some 5151 ∧
        name (vim_hidden w') = name (vim_hidden w).
Proof.
  intros exited w. split; [reflexivity|].
  refine (proj1 (X12_tick_with_a_dead_hidden_vim exited w 4242 eq_refl _) 0 5151 9
            eq_refl eq_refl _); discriminate.
Defined.

(** X13.  A whole discovery round: a tick with the hidden Vim alive and
    reachable sends it one [serverlist()] expression; when the reply with
    the serial of that frame arrives, the application is notified with the
    visible names of the reply exactly when that list differs from the one
    delivered last. *)
Theorem X13_discovery_round (env env' : Env) (w : VimWindow) (p q sts wid : Z)
    (data reply : string) :
  pid (vim_hidden w) = Some p → p ≠ 0 →
  os_waitpid env p = WaitReturns q sts → q ≠ p →
  resolve_peer env (name (vim_hidden w)) = Some wid →
  parse_message data !! "t" = Some "r" →
  parse_message data !! "s" = Some (Py.fmt_d (next_serial (serial w))) →
  parse_message data !! "r" = Some reply →
  registry_readable env' →
  ∃ w1 w2,
    fetch_serverlist env w = Ok (true, w1) ∧
    comm w1 = comm w ++
      [(wid, frame_text (name (vim_hidden w)) "c" "serverlist()" (xid w)
               (next_serial (serial w)))] ∧
    cb_notify env' (Some "Comm") (Some data) w1 = Ok (true, w2) ∧
    events w2 = events w ++
      (if decide (oldservers w = Some (visible_servers reply)) then []
       else [serverlist_event (visible_servers reply)]).
Proof.
  intros Hpid Hp Hprobe Hq Hpeer Hty Hs Hr Hreg.
  unfold fetch_serverlist, get_hidden_serverlist, Hidden.is_alive, Hidden.pid_set.
  rewrite Hpid. destruct (Z.eqb_spec p 0) as [|_]; [done|]. rewrite Hprobe.
  destruct (Z.eqb_spec q p) as [|_]; [done|]. unfold send_expr.
  rewrite (send_message_reachable _ _ _ _ _ _ wid Hpeer). cbn [mbind result_bind mret result_ret].
  set (w1 := set_callbacks _ _).
  destruct (gotservers_ok env' (visible_servers reply) w1 Hreg) as [w2 Hw2].
  exists w1, w2. split; [done|]. split; [done|].
  unfold cb_notify. rewrite decide_True by done.
  rewrite (cb_reply_reply env' data _ w1 Hty Hs), Hr.
  assert (callbacks w1 !! Py.fmt_d (next_serial (serial w)) = Some CbHiddenServerlist)
    as -> by (subst w1; cbn; by rewrite lookup_insert_eq).
  cbn [run_callback]. rewrite Hw2. split; [done|].
  by apply gotservers_result in Hw2 as [_ ->].
Qed.

Lemma X13_discovery_round_witness :
  let world := MkEnv (Some ("1f4 __1.5_PIDA_HIDDEN")) (window_foreign_new demo_env)
                 (λ _, WaitReturns 0 0) (4242, 7) "1.5" "/home/user" in
  let data := String Py.NUL "r" +:+ String Py.NUL "-s 2" +:+ String Py.NUL "-r editor_A" in
  ∃ w1 w2,
    fetch_serverlist world (do_init world 77) = Ok (true, w1) ∧
    comm w1 = [(500, frame_text "__1.5_PIDA_HIDDEN" "c" "serverlist()" 77 2)] ∧
    cb_notify world (Some "Comm") (Some data) w1 = Ok (true, w2) ∧
    events w2 = [serverlist_event ["editor_A"]].
Proof.
  intros world data.
  refine (X13_discovery_round world world (do_init world 77) 4242 0 0 500 data "editor_A"
            eq_refl _ eq_refl _ eq_refl eq_refl eq_refl eq_refl _);
    try discriminate.
  eexists. reflexivity.
Defined.

(** X14.  The working-directory cache: once the reply to a [getcwd()] call
    for a server has been dispatched, [abspath] resolves a relative buffer
    name of that server against the directory of the reply, returns an
    absolute name as it is, and sends nothing. *)
Theorem X14_cached_cwd_resolves_paths (env env' env'' : Env) (w : VimWindow)
    (server data cwd filename : string) (wid : Z) :
  resolve_peer env server = Some wid →
  parse_message data !! "t" = Some "r" →
  parse_message data !! "s" = Some (Py.fmt_d (next_serial (serial w))) →
  parse_message data !! "r" = Some cwd →
  ∃ w1 w2,
    fetch_cwd env server w = Ok w1 ∧
    cb_reply env' data w1 = Ok w2 ∧
    server_cwds w2 !! server = Some cwd ∧
    abspath env'' server filename w2 =
      Ok (if Py.startswith "/" filename then filename else Py.path_join cwd filename, w2).
Proof.
  intros Hpeer Hty Hs Hr. unfold fetch_cwd, send_expr.
  rewrite (send_message_reachable _ _ _ _ _ _ wid Hpeer).
  cbn zeta. set (w1 := set_callbacks _ _).
  exists w1, (set_server_cwds (<[server := cwd]> (server_cwds w1)) w1).
  split; [done|]. split; [|split].
  - rewrite (cb_reply_reply env' data _ _ Hty Hs), Hr.
    assert (callbacks w1 !! Py.fmt_d (next_serial (serial w)) = Some (CbGotCwd server))
      as -> by (subst w1; cbn; by rewrite lookup_insert_eq).
    done.
  - cbn [server_cwds set_server_cwds]. by rewrite lookup_insert_eq.
  - unfold abspath. destruct (Py.startswith "/" filename); [done|].
    cbn [server_cwds set_server_cwds]. by rewrite lookup_insert_eq.
Qed.

Lemma X14_cached_cwd_resolves_paths_witness :
  let data := String Py.NUL "r" +:+ String Py.NUL "-s 2" +:+ String Py.NUL "-r /srv" in
  ∃ w1 w2,
    fetch_cwd demo_env "editor_A" (do_init demo_env 500) = Ok w1 ∧
    cb_reply demo_env data w1 = Ok w2 ∧
    server_cwds w2 !! "editor_A" = Some "/srv" ∧
    abspath bare_env "editor_A" "notes.txt" w2 = Ok ("/srv/notes.txt", w2).
Proof.
  intros data.
  apply (X14_cached_cwd_resolves_paths demo_env demo_env bare_env (do_init demo_env 500)
           "editor_A" data "/srv" "notes.txt" 500); reflexivity.
Defined.

(** X15.  A notification with commas is delivered without loss: the event
    name and the arguments, joined with commas again, are the payload; the
    event has as many arguments as the payload has commas, and no argument
    holds a comma. *)
Theorem X15_notification_is_delivered_whole (data : string) (w : VimWindow) :
  Py.count "," data ≠ 0%nat →
  ∃ evt args,
    cb_reply_async data w = Ok (do_evt evt (PStr <$> args) w) ∧
    Py.join "," (evt :: args) = data ∧
    length args = Py.count "," data ∧
    Forall (free_of ",") (evt :: args).
Proof.
  intros (evt & d & -> & Hevt)%first_occurrence.
  exists evt, (Py.split "," d). rewrite cb_reply_async_comma by done.
  split; [done|]. destruct (split_nonempty "," d) as (f & fs & Hd).
  split; [|split].
  - rewrite Hd. change (Py.join "," (evt :: f :: fs))
      with (evt +:+ String "," (Py.join "," (f :: fs))).
    by rewrite <- Hd, join_split.
  - rewrite count_append_sep, split_length. unfold free_of in Hevt. lia.
  - constructor; [done|apply split_free_fields].
Qed.

Lemma X15_notification_is_delivered_whole_witness :
  ∃ evt args,
    cb_reply_async "bufferchange,3,/tmp/foo.txt" (do_init demo_env 500) =
      Ok (do_evt evt (PStr <$> args) (do_init demo_env 500)) ∧
    Py.join "," (evt :: args) = "bufferchange,3,/tmp/foo.txt" ∧
    length args = Py.count "," "bufferchange,3,/tmp/foo.txt" ∧
    Forall (free_of ",") (evt :: args).
Proof.
  apply (X15_notification_is_delivered_whole "bufferchange,3,/tmp/foo.txt"
           (do_init demo_env 500)).
  discriminate.
Defined.

(** ** Reading the root registry *)

Section Registry.

Lemma for_each_app {A S : Type} (body : S → A → result S) (l1 l2 : list A) (s : S) :
  for_each body (l1 ++ l2) s = s1 ← for_each body l1 s; for_each body l2 s1.
Proof.
  revert s. induction l1 as [|x l1 IH]; intros s; cbn; [done|].
  destruct (body s x); cbn; [apply IH|done].
Qed.

Lemma hex_digits_acc (d : Hexadecimal.uint) (acc : positive) :
  Py.hex_digits (HexadecimalString.NilEmpty.string_of_uint d) (Z.pos acc) =
  Some (Z.pos (Pos.of_hex_uint_acc d acc)).
Proof.
  revert acc. induction d; intros acc; [reflexivity|..];
    cbn [HexadecimalString.NilEmpty.string_of_uint Py.hex_digits Pos.of_hex_uint_acc];
    (match goal with
     | |- context [Py.hex_digit ?c] =>
         let v := eval vm_compute in (Py.hex_digit c) in
         change (Py.hex_digit c) with v
     end);
    cbv beta iota; rewrite <- IHd; f_equal; lia.
Qed.

Lemma hex_digits_value (d : Hexadecimal.uint) :
  Py.hex_digits (HexadecimalString.NilEmpty.string_of_uint d) 0 =
  Some (Z.of_N (Pos.of_hex_uint d)).
Proof.
  induction d; [reflexivity|..];
    cbn [HexadecimalString.NilEmpty.string_of_uint Py.hex_digits Pos.of_hex_uint];
    (match goal with
     | |- context [Py.hex_digit ?c] =>
         let v := eval vm_compute in (Py.hex_digit c) in
         change (Py.hex_digit c) with v
     end);
    cbv beta iota; first [exact IHd | apply hex_digits_acc].
Qed.

(** A text of hexadecimal digits is read by [int16] as [hex_digits] reads
    it: no sign, and no [0x] prefix, can be taken off it. *)
Lemma int16_of_digits (s : string) (v : Z) :
  s ≠ "" → Py.hex_digits s 0 = Some v → Py.int16 s = Some v.
Proof.
  destruct s as [|c1 s1]; [done|]. intros _ H.
  destruct c1 as [[] [] [] [] [] [] [] []];
    try (cbn in H; discriminate H);
    try (unfold Py.int16; cbv beta iota zeta; by rewrite H).
  destruct s1 as [|c2 s2]; [unfold Py.int16; cbv beta iota zeta; by rewrite H|].
  destruct c2 as [[] [] [] [] [] [] [] []];
    try (cbn in H; discriminate H);
    (unfold Py.int16; cbv beta iota zeta; by rewrite H).
Qed.

Lemma to_hex_uint_not_nil (n : N) : N.to_hex_uint n ≠ Hexadecimal.Nil.
Proof.
  destruct n as [|p]; cbn; [discriminate|].
  apply HexadecimalPos.Unsigned.to_uint_nonnil.
Qed.

Lemma fmt_x_digits (n : Z) :
  0 ≤ n →
  Py.fmt_x n = HexadecimalString.NilEmpty.string_of_uint (N.to_hex_uint (Z.abs_N n)).
Proof.
  intros Hn. unfold Py.fmt_x. destruct (Z.ltb_spec n 0); [lia|].
  unfold HexadecimalString.NilZero.string_of_uint.
  pose proof (to_hex_uint_not_nil (Z.abs_N n)) as Hnil.
  by destruct (N.to_hex_uint (Z.abs_N n)).
Qed.

Lemma digits_not_empty (d : Hexadecimal.uint) :
  d ≠ Hexadecimal.Nil → HexadecimalString.NilEmpty.string_of_uint d ≠ "".
Proof. by destruct d. Qed.

(** [int(s, 16)] reads back what ['%x'] wrote. *)
Lemma int16_fmt_x (n : Z) : 0 ≤ n → Py.int16 (Py.fmt_x n) = Some n.
Proof.
  intros Hn. rewrite fmt_x_digits by done.
  apply int16_of_digits; [apply digits_not_empty, to_hex_uint_not_nil|].
  rewrite hex_digits_value.
  change (Pos.of_hex_uint ?d) with (N.of_hex_uint d).
  rewrite HexadecimalN.Unsigned.of_to. f_equal. lia.
Qed.

Lemma digits_no_space (d : Hexadecimal.uint) :
  no_space (HexadecimalString.NilEmpty.string_of_uint d) = true.
Proof. induction d; cbn; done. Qed.

Lemma fmt_x_is_token (n : Z) : 0 ≤ n → is_token (Py.fmt_x n).
Proof.
  intros Hn. rewrite fmt_x_digits by done. split.
  - apply digits_not_empty, to_hex_uint_not_nil.
  - apply digits_no_space.
Qed.

Lemma split_ws_skip_space (s : string) : Py.split_ws (String " " s) = Py.split_ws s.
Proof. reflexivity. Qed.

Lemma split_ws_token (s : string) : is_token s → Py.split_ws s = [s].
Proof.
  intros [Hne Hns]. induction s as [|c s IH]; [done|].
  cbn in Hns. apply andb_true_iff in Hns as [Hc Hs].
  apply negb_true_iff in Hc. cbn [Py.split_ws]. rewrite Hc.
  destruct s as [|c' s']; [done|].
  assert (Ascii.is_space c' = false) as Hc'.
  { cbn in Hs. apply andb_true_iff in Hs as [Hc' _]. by apply negb_true_iff. }
  rewrite Hc'. by rewrite IH.
Qed.

Lemma split_ws_two_tokens (a b : string) :
  is_token a → is_token b → Py.split_ws (a +:+ String " " b) = [a; b].
Proof.
  intros [Hne Hns] Hb. induction a as [|c a IH]; [done|].
  cbn in Hns. apply andb_true_iff in Hns as [Hc Ha].
  apply negb_true_iff in Hc. rewrite append_cons. cbn [Py.split_ws]. rewrite Hc.
  destruct a as [|c' a'].
  - rewrite append_nil. change (Ascii.is_space " ") with true. cbv iota.
    by rewrite split_ws_skip_space, split_ws_token.
  - assert (Ascii.is_space c' = false) as Hc'.
    { cbn in Ha. apply andb_true_iff in Ha as [Hc' _]. by apply negb_true_iff. }
    rewrite append_cons, Hc'. rewrite <- append_cons, IH; done.
Qed.

Lemma register_entry (servers : gmap string Z) (wid : Z) (servername : string) :
  0 ≤ wid → is_token servername →
  register_rawserver servers (registry_entry wid servername) =
  Ok (<[servername := wid]> servers).
Proof.
  intros Hwid Hname. unfold register_rawserver, registry_entry.
  change (Py.fmt_x wid +:+ " " +:+ servername)
    with (Py.fmt_x wid +:+ String " " servername).
  assert (Py.truthy (Py.fmt_x wid +:+ String " " servername) = true) as ->.
  { destruct (fmt_x_is_token wid Hwid) as [Hne _].
    by destruct (Py.fmt_x wid). }
  rewrite split_ws_two_tokens by auto using fmt_x_is_token. cbn.
  by rewrite int16_fmt_x.
Qed.

End Registry.

(** X16.  What a Vim server registers can be looked up: when the registry
    can be read and a further entry [<id in hex> <name>] is appended to it,
    the registry is still readable and maps the name to the id (replacing
    an earlier id for that name); [get_server_wid] returns the id for that
    name unless it is zero, and answers as before for every other name. *)
Theorem X16_registered_server_is_found (env env' : Env) (data servername : string)
    (wid : Z) (servers : gmap string Z) :
  root_vimregistry env = Some data →
  get_rootwindow_serverlist env = Ok servers →
  0 ≤ wid → is_token servername → free_of Py.NUL servername →
  root_vimregistry env' = Some (data +:+ String Py.NUL (registry_entry wid servername)) →
  get_rootwindow_serverlist env' = Ok (<[servername := wid]> servers) ∧
  get_server_wid env' servername = Ok (if wid =? 0 then None else Some wid) ∧
  (∀ other, other ≠ servername → get_server_wid env' other = get_server_wid env other).
Proof.
  intros Hdata Hservers Hwid Hname Hnul Hdata'.
  assert (get_rootwindow_serverlist env' = Ok (<[servername := wid]> servers)) as Hnew.
  { unfold get_rootwindow_serverlist in *. rewrite Hdata in Hservers. rewrite Hdata'.
    rewrite split_app, for_each_app, Hservers. cbn [mbind result_bind].
    rewrite split_free.
    - cbn [for_each]. rewrite register_entry by done. done.
    - unfold registry_entry. apply free_of_append; [by apply fmt_x_free; left|].
      by apply free_of_cons. }
  split; [exact Hnew|]. unfold get_server_wid. rewrite Hnew, Hservers. cbn. split.
  - by rewrite lookup_insert_eq.
  - intros other Hother. by rewrite lookup_insert_ne.
Qed.

Lemma X16_registered_server_is_found_witness :
  let env' := MkEnv (Some (demo_registry +:+ String Py.NUL (registry_entry 43 "gvim2")))
                (window_foreign_new demo_env) (os_waitpid demo_env) (4242, 7) "" "" in
  get_rootwindow_serverlist env' =
    Ok (<["gvim2" := 43]> (<["ghost" := 42]> (<["editor_A" := 500]> ∅))) ∧
  get_server_wid env' "gvim2" = Ok (Some 43) ∧
  (∀ other, other ≠ "gvim2" → get_server_wid env' other = get_server_wid demo_env other).
Proof.
  intros env'.
  apply (X16_registered_server_is_found demo_env env' demo_registry "gvim2" 43
           (<["ghost" := 42]> (<["editor_A" := 500]> ∅))); try reflexivity.
  - lia.
  - split; [discriminate|reflexivity].
Defined.

(** X17.  The callback of [get_current_buffer]: a reply [nr,bufname] is
    delivered as the event [bufferchange] with the number first and the
    buffer name second, the name made absolute against the cached working
    directory of the server unless it is absolute already; a reply with no
    comma raises [IndexError] and delivers nothing. *)
Theorem X17_current_buffer_reply (env : Env) (w : VimWindow)
    (server nr bufname cwd reply : string) :
  (free_of "," nr → free_of "," bufname → server_cwds w !! server = Some cwd →
   run_callback env (CbCurrentBuffer server) (nr +:+ String "," bufname) w =
   Ok (do_evt "bufferchange"
         [PStr nr;
          PStr (if Py.startswith "/" bufname then bufname else Py.path_join cwd bufname)]
         w)) ∧
  (free_of "," reply →
   run_callback env (CbCurrentBuffer server) reply w = Raise IndexError).
Proof.
  split.
  - intros Hnr Hname Hcwd. cbn [run_callback].
    rewrite split_append_sep, (split_free "," bufname) by done.
    cbn [lookup list_lookup]. unfold abspath.
    destruct (Py.startswith "/" bufname); [done|]. by rewrite Hcwd.
  - intros Hfree. cbn [run_callback]. by rewrite split_free.
Qed.

Lemma X17_current_buffer_reply_witness :
  let w := set_server_cwds {["editor_A" := "/srv"]} (do_init demo_env 500) in
  run_callback bare_env (CbCurrentBuffer "editor_A") "3,notes.txt" w =
    Ok (do_evt "bufferchange" [PStr "3"; PStr "/srv/notes.txt"] w) ∧
  run_callback bare_env (CbCurrentBuffer "editor_A") "3" w = Raise IndexError.
Proof.
  intros w.
  destruct (X17_current_buffer_reply bare_env w "editor_A" "3" "notes.txt" "/srv" "3")
    as [Hok Hraise].
  split; [apply Hok; reflexivity|apply Hraise; reflexivity].
Defined.
